(** * AuthService of the eWallet backend: credential check and the
      reset-password token life cycle

    Shallow embedding of [AuthService] (authenticate, resetPassword,
    generateResetPasswordToken) over an explicit model of the two Prisma
    tables it touches.  Every collaborator call is recorded in a trace so
    that ordering and "no store access" statements can be expressed. *)

From Stdlib Require Import List String ZArith Bool Lia Relations.
Import ListNotations.
Local Open Scope string_scope.
Local Open Scope list_scope.
Local Open Scope Z_scope.

(** ** Data model *)

(** Row of the [user] table. *)
Module User.
Record t : Type := mk
  { id : string; email : string; name : string; password : string }.

Definition with_password (p : string) (u : t) : t :=
  {| id := id u; email := email u; name := name u; password := p |}.
End User.

(** Modelled from the spec: the class [UserModel] is not among the sources;
    spec 4.1 has the returned user "sanitized (password field stripped)",
    and the sign-up test expects [user.id], [user.name], [user.email] and
    no [user.password]. *)
Module UserModel.
Record t : Type := mk { id : string; email : string; name : string }.
End UserModel.

(** Row of the [resetPasswordToken] table.  Dates are milliseconds since the
    epoch, the value [Date.prototype.getTime] yields. *)
Module ResetPasswordToken.
Record t : Type := mk
  { id : string; userId : string; active : bool;
    expiresIn : Z; createdAt : Z }.

Definition with_active (a : bool) (r : t) : t :=
  {| id := id r; userId := userId r; active := a;
     expiresIn := expiresIn r; createdAt := createdAt r |}.
End ResetPasswordToken.

Module AuthenticateDto.
Record t : Type := mk { email : string; password : string }.
End AuthenticateDto.

Module ResetPasswordDto.
Record t : Type := mk
  { token : string; password : string; passwordConfirmation : string }.
End ResetPasswordDto.

(** Options handed to [sign] of jsonwebtoken (the payload is always [{}]). *)
Module SignOptions.
Record t : Type := mk { subject : string; expiresIn : string }.
End SignOptions.

Module IAuthResponse.
Record t : Type := mk { user : UserModel.t; token : string }.
End IAuthResponse.

(** ** Effects *)

(** What a call may throw: the service's own [BadRequestException], the
    error Prisma raises when a write cannot be carried out, or the
    [RangeError] of [Date.prototype.toISOString] on an invalid date. *)
Inductive Exception : Type :=
| BadRequestException (message : string)
| PrismaClientKnownRequestError (code : string)
| RangeError (message : string).

Inductive Result (A : Type) : Type :=
| Ok (a : A)
| Throw (e : Exception).
Arguments Ok {A} a.
Arguments Throw {A} e.

(** One entry per collaborator call, in the order the calls are awaited. *)
Inductive Event : Type :=
| UserFindUniqueByEmail (email : string)
| UserFindUniqueById (id : string)
| UserUpdate (id : string) (password : string)
| TokenFindUnique (id : string)
| TokenFindFirst (userId : string)
| TokenCreate (userId : string) (active : bool) (expiresIn : Z)
| TokenUpdate (id : string) (active : bool)
| GenerateHash (payload : string)
| CompareHash (payload hashed : string).

Record World : Type := mkWorld
  { users : list User.t;
  resetPasswordTokens : list ResetPasswordToken.t;
  trace : list Event }.

(** State that survives an exception: what was written before the throw
  stays written (no transaction is opened by the service). *)
Definition M (A : Type) : Type := World -> Result A * World.

Definition ret {A} (a : A) : M A := fun w => (Ok a, w).

Definition throw {A} (e : Exception) : M A := fun w => (Throw e, w).

Definition bind {A B} (m : M A) (k : A -> M B) : M B :=
  fun w =>
  match m w with
  | (Ok a, w') => k a w'
  | (Throw e, w') => (Throw e, w')
  end.

Notation "x <- m ;; k" := (bind m (fun x => k))
  (at level 61, m at next level, right associativity).
Notation "m ;;; k" := (bind m (fun _ => k))
  (at level 61, right associativity).

Definition emit (ev : Event) : M unit :=
  fun w => (Ok tt, {| users := users w;
                    resetPasswordTokens := resetPasswordTokens w;
                    trace := trace w ++ [ev] |}).

Definition get_users : M (list User.t) := fun w => (Ok (users w), w).

Definition get_tokens : M (list ResetPasswordToken.t) :=
  fun w => (Ok (resetPasswordTokens w), w).

Definition put_users (us : list User.t) : M unit :=
  fun w => (Ok tt, {| users := us;
                    resetPasswordTokens := resetPasswordTokens w;
                    trace := trace w |}).

Definition put_tokens (ts : list ResetPasswordToken.t) : M unit :=
  fun w => (Ok tt, {| users := users w;
                    resetPasswordTokens := ts;
                    trace := trace w |}).

(** ** The Prisma client, restricted to the queries the service issues *)

Module Prisma.

(** Error codes of Prisma: unique constraint failed, record not found. *)
Definition P2002 : string := "P2002".
Definition P2025 : string := "P2025".

Definition user_by_email (e : string) (us : list User.t) : option User.t :=
  find (fun u => String.eqb (User.email u) e) us.

Definition user_by_id (i : string) (us : list User.t) : option User.t :=
  find (fun u => String.eqb (User.id u) i) us.

Definition token_by_id (i : string) (ts : list ResetPasswordToken.t)
  : option ResetPasswordToken.t :=
  find (fun r => String.eqb (ResetPasswordToken.id r) i) ts.

(** First row of [ORDER BY createdAt DESC]: a row whose [createdAt] is
    greatest.  SQL leaves the order of rows with equal stamps open; here
    the row stored first is kept, and the same query on the same table
    answers the same row. *)
Fixpoint newest (ts : list ResetPasswordToken.t)
  : option ResetPasswordToken.t :=
  match ts with
  | [] => None
  | r :: rest =>
      match newest rest with
      | None => Some r
      | Some m =>
          if ResetPasswordToken.createdAt m <=? ResetPasswordToken.createdAt r
          then Some r else Some m
      end
  end.

Definition of_user (uid : string) (ts : list ResetPasswordToken.t)
  : list ResetPasswordToken.t :=
  filter (fun r => String.eqb (ResetPasswordToken.userId r) uid) ts.

Definition set_password (i p : string) (us : list User.t) : list User.t :=
  map (fun u => if String.eqb (User.id u) i
                then User.with_password p u else u) us.

Definition set_active (i : string) (a : bool)
  (ts : list ResetPasswordToken.t) : list ResetPasswordToken.t :=
  map (fun r => if String.eqb (ResetPasswordToken.id r) i
                then ResetPasswordToken.with_active a r else r) ts.

(** [prisma.user.findUnique({ where: { email } })] *)
Definition user_findUnique_email (e : string) : M (option User.t) :=
  emit (UserFindUniqueByEmail e) ;;;
  us <- get_users ;;
  ret (user_by_email e us).

(** [prisma.user.findUnique({ where: { id } })] *)
Definition user_findUnique_id (i : string) : M (option User.t) :=
  emit (UserFindUniqueById i) ;;;
  us <- get_users ;;
  ret (user_by_id i us).

(** [prisma.user.update({ where: { id }, data: { password } })] *)
Definition user_update (i p : string) : M User.t :=
  emit (UserUpdate i p) ;;;
  us <- get_users ;;
  match user_by_id i us with
  | None => throw (PrismaClientKnownRequestError P2025)
  | Some u => put_users (set_password i p us) ;;;
              ret (User.with_password p u)
  end.

(** [prisma.resetPasswordToken.findUnique({ where: { id } })] *)
Definition resetPasswordToken_findUnique (i : string)
  : M (option ResetPasswordToken.t) :=
  emit (TokenFindUnique i) ;;;
  ts <- get_tokens ;;
  ret (token_by_id i ts).

(** [prisma.resetPasswordToken.findFirst({ where: { userId },
    orderBy: { createdAt: 'desc' } })] *)
Definition resetPasswordToken_findFirst (uid : string)
  : M (option ResetPasswordToken.t) :=
  emit (TokenFindFirst uid) ;;;
  ts <- get_tokens ;;
  ret (newest (of_user uid ts)).

(** [prisma.resetPasswordToken.update({ where: { id }, data: { active } })] *)
Definition resetPasswordToken_update (i : string) (a : bool)
  : M ResetPasswordToken.t :=
  emit (TokenUpdate i a) ;;;
  ts <- get_tokens ;;
  match token_by_id i ts with
  | None => throw (PrismaClientKnownRequestError P2025)
  | Some r => put_tokens (set_active i a ts) ;;;
              ret (ResetPasswordToken.with_active a r)
  end.

(** Modelled from the spec: the Prisma schema is not among the sources.
    Spec 3 gives every token a unique [id] and a [createdAt] used for
    ordering; both are filled in by the database when the row is made,
    so [create] takes them as [rowId] and [rowCreatedAt].  A row whose
    [id] is already taken is refused (primary key).

    [prisma.resetPasswordToken.create({ data: { userId, active,
    expiresIn } })] *)
Definition resetPasswordToken_create (rowId : string) (rowCreatedAt : Z)
  (uid : string) (a : bool) (exp : Z) : M ResetPasswordToken.t :=
  emit (TokenCreate uid a exp) ;;;
  ts <- get_tokens ;;
  match token_by_id rowId ts with
  | Some _ => throw (PrismaClientKnownRequestError P2002)
  | None =>
      let r := ResetPasswordToken.mk rowId uid a exp rowCreatedAt in
      put_tokens (ts ++ [r]) ;;;
      ret r
  end.

End Prisma.

(** ** Collaborators injected into the service *)

(** [BCryptHashProvider], seen through its two methods. *)
Class HashProvider : Type :=
  { generateHash : string -> string;
    compareHash : string -> string -> bool }.

(** [authConfig.jwt] *)
Module JwtConfig.
Record t : Type := mk { secret : string; expiresIn : string }.
End JwtConfig.

(** What the surroundings supply to one run of
    [generateResetPasswordToken]: the two readings of [new Date()] (an
    [await] lies between them) and the columns the database fills in. *)
Module Ambient.
Record t : Type := mk
  { checkedAt : Z;      (* [new Date()] of the expiry comparison *)
    mintedAt : Z;       (* [new Date()] under [addMinutes] *)
    rowId : string;     (* [id] given to a created row *)
    rowCreatedAt : Z }. (* [createdAt] given to a created row *)
End Ambient.

(** [isAfter] of date-fns compares the two [getTime] values. *)
Definition isAfter (date dateToCompare : Z) : bool := dateToCompare <? date.

(** A JavaScript [Date] holds a time value of at most 8.64e15 milliseconds
    either side of the epoch; any other result is the Invalid Date, here
    [None]. *)
Definition maxTimeValue : Z := 8640000000000000.

Definition timeClip (time : Z) : option Z :=
  if (- maxTimeValue <=? time) && (time <=? maxTimeValue)
  then Some time else None.

(** [addMinutes] of date-fns, on millisecond stamps: the date moved by
    [amount] minutes.  [amount] is what [Number(...)] gave: an integer, or
    [None] for a value that is not a finite number (NaN, Infinity), which
    makes the result the Invalid Date; so does a sum outside the range. *)
Definition addMinutes (date : Z) (amount : option Z) : option Z :=
  match amount with
  | None => None
  | Some minutes => timeClip (date + minutes * 60000)
  end.

Definition msgInvalidTimeValue : string := "Invalid time value".

Definition msgIncorrectCombination : string :=
  "Incorrect email/paswword combination".
Definition msgPasswordMismatch : string :=
  "Password and password confirmation do not match".
Definition msgInvalidResetToken : string := "Invalid reset password token".
Definition msgExpiredResetToken : string := "Reset password token is expired".

(** [Date.prototype.toISOString], followed by Prisma reading the string
    back: the time value itself, or a [RangeError] on the Invalid Date. *)
Definition toISOString (date : option Z) : M Z :=
  match date with
  | Some time => ret time
  | None => throw (RangeError msgInvalidTimeValue)
  end.

(** [plainToClass(UserModel, user)] *)
Definition plainToClass (u : User.t) : UserModel.t :=
  UserModel.mk (User.id u) (User.email u) (User.name u).

(** The test of line 123:
    [!lastToken || !lastToken.active || lastToken.expiresIn < new Date()]. *)
Definition isLastTokenExpired (lastToken : option ResetPasswordToken.t)
  (now : Z) : bool :=
  match lastToken with
  | None => true
  | Some t =>
      negb (ResetPasswordToken.active t)
      || (ResetPasswordToken.expiresIn t <? now)
  end.

(** ** Requests and messages of the remaining methods *)

(** Body of a sign-up request, with the fields the e2e test sends. *)
Module CreateUserDto.
Record t : Type := mk
  { email : string; name : string;
    password : string; passwordConfirmation : string }.
End CreateUserDto.

Module ForgotPasswordDto.
Record t : Type := mk { email : string }.
End ForgotPasswordDto.

(** The object literal of lines 77 to 85. *)
Module EmailFrom.
Record t : Type := mk { name : string; email : string }.
End EmailFrom.

Module EmailTo.
Record t : Type := mk { email : string }.
End EmailTo.

Module IEmailData.
Record t : Type := mk
  { subject : string; from : EmailFrom.t; to : EmailTo.t;
    htmlContent : string }.
End IEmailData.

(** The subject of line 78, as its UTF-8 bytes. *)
Definition forgotPasswordSubject : string :=
  "eWallet: Recuperação de senha de acesso".

Definition forgotPasswordFrom : EmailFrom.t :=
  EmailFrom.mk "eWallet" "recover@ewallet.com".

(** ** The service *)

Module AuthService.
Section Injected.

Context {hashProvider : HashProvider}.

(** [sign({}, secret, options)] of jsonwebtoken; the payload is constant. *)
Variable sign : string -> SignOptions.t -> string.

Variable authConfig_jwt : JwtConfig.t.

(** [Number(process.env.RESET_PASSWORD_TOKEN_EXPIRES_IN)], in minutes:
    [None] when the variable is unset or does not read as a finite
    number. *)
Variable RESET_PASSWORD_TOKEN_EXPIRES_IN : option Z.

Definition hashProvider_generateHash (payload : string) : M string :=
  emit (GenerateHash payload) ;;;
  ret (generateHash payload).

Definition hashProvider_compareHash (payload hashed : string) : M bool :=
  emit (CompareHash payload hashed) ;;;
  ret (compareHash payload hashed).

Definition authenticate (credentials : AuthenticateDto.t)
  : M IAuthResponse.t :=
  user <- Prisma.user_findUnique_email (AuthenticateDto.email credentials) ;;
  match user with
  | None => throw (BadRequestException msgIncorrectCombination)
  | Some user =>
      passwordMatched <-
        hashProvider_compareHash (AuthenticateDto.password credentials)
                                 (User.password user) ;;
      if negb passwordMatched
      then throw (BadRequestException msgIncorrectCombination)
      else
        let token :=
          sign (JwtConfig.secret authConfig_jwt)
               (SignOptions.mk (User.id user)
                               (JwtConfig.expiresIn authConfig_jwt)) in
        ret (IAuthResponse.mk (plainToClass user) token)
  end.

(** [now] is the reading of [Date.now()] on line 107. *)
Definition resetPassword (now : Z) (data : ResetPasswordDto.t) : M unit :=
  if negb (String.eqb (ResetPasswordDto.password data)
                      (ResetPasswordDto.passwordConfirmation data))
  then throw (BadRequestException msgPasswordMismatch)
  else
    resetPasswordToken <-
      Prisma.resetPasswordToken_findUnique (ResetPasswordDto.token data) ;;
    match resetPasswordToken with
    | None => throw (BadRequestException msgInvalidResetToken)
    | Some resetPasswordToken =>
        user <- Prisma.user_findUnique_id
                  (ResetPasswordToken.userId resetPasswordToken) ;;
        match user with
        | None => throw (BadRequestException msgInvalidResetToken)
        | Some user =>
            if isAfter now (ResetPasswordToken.expiresIn resetPasswordToken)
               || negb (ResetPasswordToken.active resetPasswordToken)
            then throw (BadRequestException msgExpiredResetToken)
            else
              hashedPassword <-
                hashProvider_generateHash (ResetPasswordDto.password data) ;;
              Prisma.user_update (User.id user) hashedPassword ;;;
              Prisma.resetPasswordToken_update
                (ResetPasswordToken.id resetPasswordToken) false ;;;
              ret tt
        end
    end.

Definition generateResetPasswordToken (env : Ambient.t) (userId : string)
  : M ResetPasswordToken.t :=
  lastToken <- Prisma.resetPasswordToken_findFirst userId ;;
  match lastToken, isLastTokenExpired lastToken (Ambient.checkedAt env) with
  | Some t, false => ret t
  | _, _ =>
      expiresIn <-
        toISOString
          (addMinutes (Ambient.mintedAt env)
                      RESET_PASSWORD_TOKEN_EXPIRES_IN) ;;
      Prisma.resetPasswordToken_create
        (Ambient.rowId env) (Ambient.rowCreatedAt env)
        userId true expiresIn
  end.

(** The row a minting run of [generateResetPasswordToken] stores, given
    the expiry it computed. *)
Definition minted (env : Ambient.t) (userId : string) (expiresIn : Z)
  : ResetPasswordToken.t :=
  ResetPasswordToken.mk (Ambient.rowId env) userId true expiresIn
    (Ambient.rowCreatedAt env).

(** One call of the service, by any caller and with any surroundings. *)
Inductive call : World -> World -> Prop :=
| call_authenticate c w r w' :
    authenticate c w = (r, w') -> call w w'
| call_resetPassword now d w r w' :
    resetPassword now d w = (r, w') -> call w w'
| call_generateResetPasswordToken env uid w r w' :
    generateResetPasswordToken env uid w = (r, w') -> call w w'.

(** Any number of calls, one after the other. *)
Definition calls : World -> World -> Prop := clos_refl_trans World call.

(** [UsersService], seen through the two methods the service calls, the
    template of the forgot-password mail and [SendInBlueMailProvider]: none
    of them is among the sources, so each is whatever the caller injects. *)
Variable userService_create : CreateUserDto.t -> M User.t.
Variable userService_findByEmail : string -> M User.t.
Variable parseForgotPasswordEmailTemplate :
  User.t -> ResetPasswordToken.t -> string.
Variable mailProvider_sendEmail : IEmailData.t -> M unit.

Definition register (data : CreateUserDto.t) : M IAuthResponse.t :=
  user <- userService_create data ;;
  let token :=
    sign (JwtConfig.secret authConfig_jwt)
         (SignOptions.mk (User.id user)
                         (JwtConfig.expiresIn authConfig_jwt)) in
  ret (IAuthResponse.mk (plainToClass user) token).

Definition sendForgotPasswordEmail (env : Ambient.t)
  (dto : ForgotPasswordDto.t) : M unit :=
  let email := ForgotPasswordDto.email dto in
  user <- userService_findByEmail email ;;
  resetPasswordToken <- generateResetPasswordToken env (User.id user) ;;
  let htmlContent :=
    parseForgotPasswordEmailTemplate user resetPasswordToken in
  let emailData :=
    IEmailData.mk forgotPasswordSubject forgotPasswordFrom
      (EmailTo.mk email) htmlContent in
  mailProvider_sendEmail emailData.

End Injected.
End AuthService.

(** A token that can no longer be used: it is stored, it is inactive, and
    the user it belongs to is stored too. *)
Definition consumed (tokenId : string) (w : World) : Prop :=
  exists t,
    Prisma.token_by_id tokenId (resetPasswordTokens w) = Some t
    /\ ResetPasswordToken.active t = false
    /\ Prisma.user_by_id (ResetPasswordToken.userId t) (users w) <> None.

(** ** Concrete collaborators and tables, for the examples *)

Module Sample.

Definition hashProvider : HashProvider :=
  {| generateHash := fun payload => ("hashed:" ++ payload)%string;
     compareHash := fun payload hashed =>
                      String.eqb ("hashed:" ++ payload)%string hashed |}.

Definition sign (secret : string) (options : SignOptions.t) : string :=
  (SignOptions.subject options ++ "." ++ SignOptions.expiresIn options
   ++ "." ++ secret)%string.

Definition jwt : JwtConfig.t := JwtConfig.mk "secret" "1d".

(** Thirty minutes, the figure of the scenarios of spec 8. *)
Definition ttl : option Z := Some 30.

Definition alice : User.t :=
  User.mk "u1" "alice@ewallet.com" "Alice" "hashed:abc12345".

(** Issued at 0 with thirty minutes to live. *)
Definition T1 : ResetPasswordToken.t :=
  ResetPasswordToken.mk "T1" "u1" true 1800000 0.

Definition empty : World := mkWorld [] [] [].
Definition registered : World := mkWorld [alice] [] [].
Definition issued : World := mkWorld [alice] [T1] [].

Definition authenticate :=
  @AuthService.authenticate hashProvider sign jwt.
Definition resetPassword := @AuthService.resetPassword hashProvider.
Definition generateResetPasswordToken :=
  AuthService.generateResetPasswordToken ttl.

End Sample.

(** ** Notions for the life cycle of tokens *)

(** A token that both expiry tests let through at the reading [now]: it is
    active and [now] is not past its [expiresIn]. *)
Definition usable (now : Z) (t : ResetPasswordToken.t) : bool :=
  ResetPasswordToken.active t
  && negb (ResetPasswordToken.expiresIn t <? now).

(** Whatever token is usable at [now] is the one [findFirst] answers for
    its user; so a user has at most one usable token, and it is the one a
    new request would hand back. *)
Definition sole_usable (now : Z) (w : World) : Prop :=
  forall t,
    In t (resetPasswordTokens w) ->
    usable now t = true ->
    Prisma.newest
      (Prisma.of_user (ResetPasswordToken.userId t) (resetPasswordTokens w))
    = Some t.

(** The same user row, the password apart. *)
Definition same_profile (u u' : User.t) : Prop :=
  User.id u' = User.id u
  /\ User.email u' = User.email u
  /\ User.name u' = User.name u.

(** The same token row, except that it may have been deactivated. *)
Definition not_revived (t t' : ResetPasswordToken.t) : Prop :=
  ResetPasswordToken.id t' = ResetPasswordToken.id t
  /\ ResetPasswordToken.userId t' = ResetPasswordToken.userId t
  /\ ResetPasswordToken.expiresIn t' = ResetPasswordToken.expiresIn t
  /\ ResetPasswordToken.createdAt t' = ResetPasswordToken.createdAt t
  /\ (ResetPasswordToken.active t = false ->
      ResetPasswordToken.active t' = false).

(** [w'] has the user rows of [w], passwords apart, and the token rows of
    [w], possibly deactivated, followed by rows added since. *)
Definition extends (w w' : World) : Prop :=
  Forall2 same_profile (users w) (users w')
  /\ exists kept added,
       resetPasswordTokens w' = kept ++ added
       /\ Forall2 not_revived (resetPasswordTokens w) kept.

(** ** Stand-ins for the collaborators that are not among the sources *)

Module Scenario.

Definition notFound : Exception := BadRequestException "User not found".

Definition findByEmail (email : string) : M User.t :=
  fun w =>
    match Prisma.user_by_email email (users w) with
    | Some u => (Ok u, w)
    | None => (Throw notFound, w)
    end.

Definition create (data : CreateUserDto.t) : M User.t :=
  fun w =>
    let u :=
      User.mk "u2" (CreateUserDto.email data) (CreateUserDto.name data)
        ("hashed:" ++ CreateUserDto.password data)%string in
    (Ok u, {| users := users w ++ [u];
              resetPasswordTokens := resetPasswordTokens w;
              trace := trace w |}).

Definition template (u : User.t) (t : ResetPasswordToken.t) : string :=
  (User.name u ++ " " ++ ResetPasswordToken.id t)%string.

Definition sendEmail (_ : IEmailData.t) : M unit := ret tt.

Definition sendForgotPasswordEmail :=
  AuthService.sendForgotPasswordEmail (Some 30) findByEmail template
    sendEmail.

End Scenario.

Ltac unfold_service :=
  unfold Prisma.user_findUnique_email, Prisma.user_findUnique_id,
    Prisma.user_update, Prisma.resetPasswordToken_findUnique,
    Prisma.resetPasswordToken_findFirst, Prisma.resetPasswordToken_update,
    Prisma.resetPasswordToken_create, toISOString, bind, ret, throw, emit,
    get_users, get_tokens, put_users, put_tokens; simpl.

(** ** Facts about the table queries *)

Section TableFacts.

Lemma find_map_stable {A : Type} (p : A -> bool) (f : A -> A) (l : list A) :
  (forall x, p (f x) = p x) ->
  find p (map f l) = option_map f (find p l).
Proof.
  intros Hp. induction l as [|x l IH]; simpl; [reflexivity|].
  rewrite Hp. destruct (p x); [reflexivity|exact IH].
Qed.

Lemma find_app_found {A : Type} (p : A -> bool) (l l' : list A) (x : A) :
  find p l = Some x -> find p (l ++ l') = Some x.
Proof.
  induction l as [|y l IH]; simpl; [discriminate|].
  destruct (p y); [trivial|exact IH].
Qed.

Lemma find_none_forall {A : Type} (p : A -> bool) (l : list A) :
  find p l = None <-> (forall x, In x l -> p x = false).
Proof.
  split.
  - intros H x Hx. exact (find_none p l H x Hx).
  - induction l as [|y l IH]; simpl; intros H; [reflexivity|].
    rewrite (H y (or_introl eq_refl)). apply IH. intros x Hx.
    apply H. right. exact Hx.
Qed.

Lemma token_by_id_id i ts t :
  Prisma.token_by_id i ts = Some t -> ResetPasswordToken.id t = i.
Proof.
  unfold Prisma.token_by_id. intros H.
  apply find_some in H. destruct H as [_ H].
  apply String.eqb_eq. exact H.
Qed.

Lemma user_by_id_id i us u :
  Prisma.user_by_id i us = Some u -> User.id u = i.
Proof.
  unfold Prisma.user_by_id. intros H.
  apply find_some in H. destruct H as [_ H].
  apply String.eqb_eq. exact H.
Qed.

Lemma token_by_id_fresh i ts :
  Prisma.token_by_id i ts = None <->
  ~ In i (map ResetPasswordToken.id ts).
Proof.
  unfold Prisma.token_by_id. rewrite find_none_forall. split.
  - intros H Hin. apply in_map_iff in Hin. destruct Hin as (r & Hr & Hin).
    specialize (H r Hin). rewrite Hr, String.eqb_refl in H. discriminate.
  - intros H r Hin. apply String.eqb_neq. intros Hr. apply H.
    apply in_map_iff. exists r. split; assumption.
Qed.

Lemma token_by_id_set_active i j a ts :
  Prisma.token_by_id i (Prisma.set_active j a ts) =
  option_map (fun r => if String.eqb (ResetPasswordToken.id r) j
                       then ResetPasswordToken.with_active a r else r)
             (Prisma.token_by_id i ts).
Proof.
  unfold Prisma.token_by_id, Prisma.set_active.
  apply find_map_stable. intros r.
  destruct (String.eqb (ResetPasswordToken.id r) j); reflexivity.
Qed.

Lemma user_by_id_set_password i j p us :
  Prisma.user_by_id i (Prisma.set_password j p us) =
  option_map (fun u => if String.eqb (User.id u) j
                       then User.with_password p u else u)
             (Prisma.user_by_id i us).
Proof.
  unfold Prisma.user_by_id, Prisma.set_password.
  apply find_map_stable. intros u.
  destruct (String.eqb (User.id u) j); reflexivity.
Qed.

(** [newest] answers [None] on the empty list only. *)
Lemma newest_none ts : Prisma.newest ts = None <-> ts = [].
Proof.
  destruct ts as [|r rest]; simpl; [tauto|].
  split; [|discriminate].
  destruct (Prisma.newest rest) as [m|]; [|discriminate].
  destruct (_ <=? _); discriminate.
Qed.

(** The row [newest] answers is a row of the list, and no row of the list
    was created later. *)
Lemma newest_some ts t :
  Prisma.newest ts = Some t ->
  In t ts /\
  forall r, In r ts ->
            ResetPasswordToken.createdAt r <= ResetPasswordToken.createdAt t.
Proof.
  revert t. induction ts as [|x rest IH]; simpl; intros t H; [discriminate|].
  destruct (Prisma.newest rest) as [m|] eqn:Hm.
  - destruct (IH m eq_refl) as [Hin Hmax].
    destruct (ResetPasswordToken.createdAt m <=? ResetPasswordToken.createdAt x)
      eqn:Hc; inversion H; subst t; clear H.
    + apply Z.leb_le in Hc. split; [left; reflexivity|].
      intros r [<-|Hr]; [lia|]. specialize (Hmax r Hr). lia.
    + apply Z.leb_gt in Hc. split; [right; exact Hin|].
      intros r [<-|Hr]; [lia|]. exact (Hmax r Hr).
  - inversion H; subst t; clear H. apply newest_none in Hm. subst rest.
    split; [left; reflexivity|]. intros r [<-|[]]. lia.
Qed.

(** A row stamped strictly later than all the others is the one answered,
    wherever it is stored. *)
Lemma newest_app_later ts r :
  (forall x, In x ts ->
             ResetPasswordToken.createdAt x < ResetPasswordToken.createdAt r) ->
  Prisma.newest (ts ++ [r]) = Some r.
Proof.
  induction ts as [|x rest IH]; simpl; intros H; [reflexivity|].
  rewrite IH by (intros y Hy; apply H; right; exact Hy).
  specialize (H x (or_introl eq_refl)).
  destruct (ResetPasswordToken.createdAt r <=? ResetPasswordToken.createdAt x)
    eqn:Hc; [apply Z.leb_le in Hc; lia|reflexivity].
Qed.

Lemma of_user_app uid ts ts' :
  Prisma.of_user uid (ts ++ ts') =
  Prisma.of_user uid ts ++ Prisma.of_user uid ts'.
Proof. unfold Prisma.of_user. apply filter_app. Qed.

Lemma of_user_In uid ts r :
  In r (Prisma.of_user uid ts) <->
  In r ts /\ ResetPasswordToken.userId r = uid.
Proof.
  unfold Prisma.of_user. rewrite filter_In, String.eqb_eq. tauto.
Qed.

End TableFacts.

(** ** Runs of the service *)

Section AuthServiceRuns.

Context {hashProvider : HashProvider}.
Variable sign : string -> SignOptions.t -> string.
Variable authConfig_jwt : JwtConfig.t.
Variable RESET_PASSWORD_TOKEN_EXPIRES_IN : option Z.

Abbreviation authenticate := (AuthService.authenticate sign authConfig_jwt).
Abbreviation resetPassword := AuthService.resetPassword.
Abbreviation generateResetPasswordToken :=
  (AuthService.generateResetPasswordToken RESET_PASSWORD_TOKEN_EXPIRES_IN).
Abbreviation minted := AuthService.minted.
Abbreviation call :=
  (AuthService.call sign authConfig_jwt RESET_PASSWORD_TOKEN_EXPIRES_IN).
Abbreviation calls :=
  (AuthService.calls sign authConfig_jwt RESET_PASSWORD_TOKEN_EXPIRES_IN).

(** The guard of line 107 lets a token through exactly when it is active
    and the clock has not gone past its [expiresIn]. *)
Lemma reset_guard_false now t :
  isAfter now (ResetPasswordToken.expiresIn t)
  || negb (ResetPasswordToken.active t) = false <->
  ResetPasswordToken.active t = true /\
  now <= ResetPasswordToken.expiresIn t.
Proof.
  unfold isAfter. rewrite orb_false_iff, negb_false_iff, Z.ltb_ge. tauto.
Qed.

(** [authenticate] reads the user table once and writes nothing. *)
Lemma authenticate_tables c w r w' :
  authenticate c w = (r, w') ->
  users w' = users w /\ resetPasswordTokens w' = resetPasswordTokens w.
Proof.
  unfold AuthService.authenticate, AuthService.hashProvider_compareHash. unfold_service.
  destruct (Prisma.user_by_email _ _) as [u|]; simpl.
  - destruct (compareHash _ _); simpl; intros H; inversion H; subst;
      simpl; auto.
  - intros H; inversion H; subst; simpl; auto.
Qed.

(** Every failure of [authenticate] is the same [BadRequestException]. *)
Lemma authenticate_throw c w e w' :
  authenticate c w = (Throw e, w') ->
  e = BadRequestException msgIncorrectCombination.
Proof.
  unfold AuthService.authenticate, AuthService.hashProvider_compareHash. unfold_service.
  destruct (Prisma.user_by_email _ _) as [u|]; simpl.
  - destruct (compareHash _ _); simpl; intros H; inversion H; reflexivity.
  - intros H; inversion H; reflexivity.
Qed.

(** A failing [resetPassword] has thrown one of its three messages, and has
    left both tables as they were. *)
Lemma resetPassword_throw now d w e w' :
  resetPassword now d w = (Throw e, w') ->
  (e = BadRequestException msgPasswordMismatch
   \/ e = BadRequestException msgInvalidResetToken
   \/ e = BadRequestException msgExpiredResetToken)
  /\ users w' = users w
  /\ resetPasswordTokens w' = resetPasswordTokens w.
Proof.
  unfold AuthService.resetPassword, AuthService.hashProvider_generateHash.
  destruct (negb _); [intros H; inversion H; subst; auto|].
  unfold_service.
  destruct (Prisma.token_by_id _ _) as [t|] eqn:Ht; simpl;
    [|intros H; inversion H; subst; simpl; auto].
  destruct (Prisma.user_by_id _ _) as [u|] eqn:Hu; simpl;
    [|intros H; inversion H; subst; simpl; auto].
  destruct (_ || _); simpl; [intros H; inversion H; subst; simpl; auto|].
  rewrite (user_by_id_id _ _ _ Hu), Hu. simpl.
  rewrite (token_by_id_id _ _ _ Ht), Ht. simpl.
  discriminate.
Qed.

(** A successful [resetPassword]: what had to hold, and what was written. *)
Lemma resetPassword_ok_inv now d w w' :
  resetPassword now d w = (Ok tt, w') ->
  exists t u,
    ResetPasswordDto.password d = ResetPasswordDto.passwordConfirmation d
    /\ Prisma.token_by_id (ResetPasswordDto.token d) (resetPasswordTokens w)
       = Some t
    /\ Prisma.user_by_id (ResetPasswordToken.userId t) (users w) = Some u
    /\ ResetPasswordToken.active t = true
    /\ now <= ResetPasswordToken.expiresIn t
    /\ users w' =
       Prisma.set_password (User.id u)
         (generateHash (ResetPasswordDto.password d)) (users w)
    /\ resetPasswordTokens w' =
       Prisma.set_active (ResetPasswordToken.id t) false
         (resetPasswordTokens w).
Proof.
  unfold AuthService.resetPassword, AuthService.hashProvider_generateHash.
  destruct (String.eqb _ _) eqn:Hpw; simpl; [|discriminate].
  apply String.eqb_eq in Hpw.
  unfold_service.
  destruct (Prisma.token_by_id _ _) as [t|] eqn:Ht; simpl; [|discriminate].
  destruct (Prisma.user_by_id _ _) as [u|] eqn:Hu; simpl; [|discriminate].
  destruct (_ || _) eqn:Hg; simpl; [discriminate|].
  apply reset_guard_false in Hg. destruct Hg as [Hact Hexp].
  rewrite (user_by_id_id _ _ _ Hu), Hu. simpl.
  rewrite (token_by_id_id _ _ _ Ht), Ht. simpl.
  intros H. inversion H; subst; clear H. simpl.
  exists t, u. rewrite (user_by_id_id _ _ _ Hu), (token_by_id_id _ _ _ Ht).
  repeat split; auto.
Qed.

(** The full run of [resetPassword] when every check passes. *)
Lemma resetPassword_ok now d w t u :
  ResetPasswordDto.password d = ResetPasswordDto.passwordConfirmation d ->
  Prisma.token_by_id (ResetPasswordDto.token d) (resetPasswordTokens w)
  = Some t ->
  Prisma.user_by_id (ResetPasswordToken.userId t) (users w) = Some u ->
  ResetPasswordToken.active t = true ->
  now <= ResetPasswordToken.expiresIn t ->
  resetPassword now d w =
  (Ok tt,
   {| users :=
        Prisma.set_password (User.id u)
          (generateHash (ResetPasswordDto.password d)) (users w);
      resetPasswordTokens :=
        Prisma.set_active (ResetPasswordToken.id t) false
          (resetPasswordTokens w);
      trace :=
        trace w ++
        [ TokenFindUnique (ResetPasswordDto.token d);
          UserFindUniqueById (ResetPasswordToken.userId t);
          GenerateHash (ResetPasswordDto.password d);
          UserUpdate (User.id u)
            (generateHash (ResetPasswordDto.password d));
          TokenUpdate (ResetPasswordToken.id t) false ] |}).
Proof.
  intros Hpw Ht Hu Hact Hexp.
  unfold AuthService.resetPassword, AuthService.hashProvider_generateHash.
  apply String.eqb_eq in Hpw. rewrite Hpw. simpl.
  unfold_service. rewrite Ht. simpl. rewrite Hu. simpl.
  assert (Hg : isAfter now (ResetPasswordToken.expiresIn t)
               || negb (ResetPasswordToken.active t) = false)
    by (apply reset_guard_false; auto).
  rewrite Hg. simpl.
  pose proof (user_by_id_id _ _ _ Hu) as Hui.
  pose proof (token_by_id_id _ _ _ Ht) as Hti.
  rewrite Hui, Hu. simpl. rewrite Hti, Ht. simpl.
  rewrite <- !app_assoc. reflexivity.
Qed.

Lemma isLastTokenExpired_iff lastToken now :
  isLastTokenExpired lastToken now = true <->
  lastToken = None
  \/ exists t, lastToken = Some t
               /\ (ResetPasswordToken.active t = false
                   \/ ResetPasswordToken.expiresIn t < now).
Proof.
  destruct lastToken as [t|]; simpl.
  - rewrite orb_true_iff, negb_true_iff, Z.ltb_lt. split.
    + intros H. right. exists t. split; [reflexivity|exact H].
    + intros [H|(t' & H & H')]; [discriminate|]. inversion H; subst. exact H'.
  - split; auto.
Qed.

(** Reuse: the last token is handed back and nothing is written. *)
Lemma generate_reuse env uid w t :
  Prisma.newest (Prisma.of_user uid (resetPasswordTokens w)) = Some t ->
  isLastTokenExpired (Some t) (Ambient.checkedAt env) = false ->
  generateResetPasswordToken env uid w =
  (Ok t, {| users := users w;
            resetPasswordTokens := resetPasswordTokens w;
            trace := trace w ++ [TokenFindFirst uid] |}).
Proof.
  intros Hlast Hexp. unfold AuthService.generateResetPasswordToken.
  unfold_service. rewrite Hlast. simpl in Hexp. rewrite Hexp. reflexivity.
Qed.

(** Minting: a row is appended, provided the expiry is a valid date and
    the database's [id] is unused. *)
Lemma generate_mint env uid w expiresIn :
  isLastTokenExpired
    (Prisma.newest (Prisma.of_user uid (resetPasswordTokens w)))
    (Ambient.checkedAt env) = true ->
  addMinutes (Ambient.mintedAt env) RESET_PASSWORD_TOKEN_EXPIRES_IN
  = Some expiresIn ->
  Prisma.token_by_id (Ambient.rowId env) (resetPasswordTokens w) = None ->
  generateResetPasswordToken env uid w =
  (Ok (minted env uid expiresIn),
   {| users := users w;
      resetPasswordTokens :=
        resetPasswordTokens w ++ [minted env uid expiresIn];
      trace :=
        trace w ++ [TokenFindFirst uid; TokenCreate uid true expiresIn] |}).
Proof.
  intros Hexp Hdate Hfresh. unfold AuthService.generateResetPasswordToken.
  unfold_service.
  destruct (Prisma.newest _) as [t|]; simpl in Hexp; [rewrite Hexp|];
    simpl; rewrite Hdate; simpl; rewrite Hfresh; simpl;
    rewrite <- app_assoc; reflexivity.
Qed.

(** The expiry is not a valid date: [toISOString] throws before the row is
    handed to the database. *)
Lemma generate_invalid_date env uid w :
  isLastTokenExpired
    (Prisma.newest (Prisma.of_user uid (resetPasswordTokens w)))
    (Ambient.checkedAt env) = true ->
  addMinutes (Ambient.mintedAt env) RESET_PASSWORD_TOKEN_EXPIRES_IN = None ->
  generateResetPasswordToken env uid w =
  (Throw (RangeError msgInvalidTimeValue),
   {| users := users w;
      resetPasswordTokens := resetPasswordTokens w;
      trace := trace w ++ [TokenFindFirst uid] |}).
Proof.
  intros Hexp Hdate. unfold AuthService.generateResetPasswordToken.
  unfold_service.
  destruct (Prisma.newest _) as [t|]; simpl in Hexp; [rewrite Hexp|];
    simpl; rewrite Hdate; reflexivity.
Qed.

(** Whatever happens, [generateResetPasswordToken] leaves the user table
    alone and either leaves the token table alone or appends one row. *)
Lemma generate_tables env uid w r w' :
  generateResetPasswordToken env uid w = (r, w') ->
  users w' = users w
  /\ (resetPasswordTokens w' = resetPasswordTokens w
      \/ exists row, resetPasswordTokens w' = resetPasswordTokens w ++ [row]).
Proof.
  unfold AuthService.generateResetPasswordToken. unfold_service.
  destruct (Prisma.newest _) as [t|]; [destruct (negb _ || _)|]; simpl;
    try destruct (addMinutes _ _); simpl;
    try destruct (Prisma.token_by_id _ _); simpl;
    intros H; inversion H; subst; simpl; eauto.
Qed.

(** A run of [generateResetPasswordToken] that returns a token either
    reused the last one or minted a row under an unused [id], with a valid
    date as its expiry. *)
Lemma generate_ok_inv env uid w tok w' :
  generateResetPasswordToken env uid w = (Ok tok, w') ->
  let lastToken :=
    Prisma.newest (Prisma.of_user uid (resetPasswordTokens w)) in
  (isLastTokenExpired lastToken (Ambient.checkedAt env) = false
   /\ lastToken = Some tok
   /\ resetPasswordTokens w' = resetPasswordTokens w)
  \/ (isLastTokenExpired lastToken (Ambient.checkedAt env) = true
      /\ Prisma.token_by_id (Ambient.rowId env) (resetPasswordTokens w) = None
      /\ (exists expiresIn,
            addMinutes (Ambient.mintedAt env) RESET_PASSWORD_TOKEN_EXPIRES_IN
            = Some expiresIn
            /\ tok = minted env uid expiresIn)
      /\ resetPasswordTokens w' = resetPasswordTokens w ++ [tok]).
Proof.
  intros H lastToken. subst lastToken.
  destruct (isLastTokenExpired
              (Prisma.newest (Prisma.of_user uid (resetPasswordTokens w)))
              (Ambient.checkedAt env)) eqn:Hexp.
  - right.
    destruct (addMinutes (Ambient.mintedAt env)
                RESET_PASSWORD_TOKEN_EXPIRES_IN) as [expiresIn|] eqn:Hdate.
    + destruct (Prisma.token_by_id (Ambient.rowId env)
                  (resetPasswordTokens w)) as [x|] eqn:Hid.
      * exfalso. revert H.
        unfold AuthService.generateResetPasswordToken. unfold_service.
        destruct (Prisma.newest _) as [t|]; simpl in Hexp;
          [rewrite Hexp|]; simpl; rewrite Hdate; simpl; rewrite Hid; simpl;
          discriminate.
      * rewrite (generate_mint env uid w expiresIn Hexp Hdate Hid) in H.
        inversion H; subst; simpl. repeat split; auto.
        exists expiresIn. auto.
    + rewrite (generate_invalid_date env uid w Hexp Hdate) in H.
      discriminate.
  - left.
    destruct (Prisma.newest (Prisma.of_user uid (resetPasswordTokens w)))
      as [t|] eqn:Hlast; [|discriminate].
    rewrite (generate_reuse env uid w t Hlast Hexp) in H.
    inversion H; subst; simpl. auto.
Qed.

(** [consumed] looks at the two tables only. *)
Lemma consumed_tables T w w' :
  users w' = users w ->
  resetPasswordTokens w' = resetPasswordTokens w ->
  consumed T w -> consumed T w'.
Proof.
  intros Hu Ht (t & Hfind & Hact & Huser). exists t.
  rewrite Hu, Ht. auto.
Qed.

(** A successful [resetPassword] consumes the token it was given. *)
Lemma consumed_after_reset now d w w' :
  resetPassword now d w = (Ok tt, w') ->
  consumed (ResetPasswordDto.token d) w'.
Proof.
  intros H. apply resetPassword_ok_inv in H.
  destruct H as (t & u & _ & Ht & Hu & _ & _ & Hus & Hts).
  exists (ResetPasswordToken.with_active false t).
  rewrite Hus, Hts, token_by_id_set_active, Ht. simpl.
  rewrite String.eqb_refl. repeat split.
  rewrite user_by_id_set_password, Hu. discriminate.
Qed.

(** No call of the service brings a consumed token back. *)
Lemma consumed_call T w w' : call w w' -> consumed T w -> consumed T w'.
Proof.
  intros Hcall Hc. destruct Hcall as [c w r w' H|now d w r w' H|env uid w r w' H].
  - destruct (authenticate_tables c w r w' H) as [Hu Ht].
    exact (consumed_tables T w w' Hu Ht Hc).
  - destruct r as [[]|e].
    + apply resetPassword_ok_inv in H.
      destruct H as (t & u & _ & _ & _ & _ & _ & Hus & Hts).
      destruct Hc as (t0 & Hfind & Hact & Huser).
      eexists. rewrite Hus, Hts, token_by_id_set_active, Hfind. simpl.
      split; [reflexivity|]. split.
      * destruct (String.eqb _ _); [reflexivity|exact Hact].
      * assert (Hid : ResetPasswordToken.userId
                        (if String.eqb (ResetPasswordToken.id t0)
                                       (ResetPasswordToken.id t)
                         then ResetPasswordToken.with_active false t0
                         else t0) = ResetPasswordToken.userId t0)
          by (destruct (String.eqb _ _); reflexivity).
        rewrite Hid, user_by_id_set_password.
        destruct (Prisma.user_by_id _ (users w)); [discriminate|].
        exfalso. apply Huser. reflexivity.
    + destruct (resetPassword_throw now d w e w' H) as (_ & Hu & Ht).
      exact (consumed_tables T w w' Hu Ht Hc).
  - destruct (generate_tables env uid w r w' H) as [Hu [Ht|[row Ht]]].
    + exact (consumed_tables T w w' Hu Ht Hc).
    + destruct Hc as (t0 & Hfind & Hact & Huser). exists t0.
      rewrite Hu, Ht. repeat split; auto.
      apply find_app_found. exact Hfind.
Qed.

Lemma consumed_calls T w w' : calls w w' -> consumed T w -> consumed T w'.
Proof.
  intros H. induction H as [w w' H|w|w w1 w' _ IH1 _ IH2].
  - exact (consumed_call T w w' H).
  - trivial.
  - intros Hc. apply IH2, IH1, Hc.
Qed.

(** A consumed token is turned down, and nothing is written. *)
Lemma consumed_reset_fails now d w :
  consumed (ResetPasswordDto.token d) w ->
  exists e w',
    resetPassword now d w = (Throw e, w')
    /\ users w' = users w
    /\ resetPasswordTokens w' = resetPasswordTokens w
    /\ (ResetPasswordDto.password d = ResetPasswordDto.passwordConfirmation d
        -> e = BadRequestException msgExpiredResetToken)
    /\ (ResetPasswordDto.password d <> ResetPasswordDto.passwordConfirmation d
        -> e = BadRequestException msgPasswordMismatch).
Proof.
  intros (t & Hfind & Hact & Huser).
  unfold AuthService.resetPassword.
  destruct (String.eqb (ResetPasswordDto.password d)
                       (ResetPasswordDto.passwordConfirmation d)) eqn:Hpw.
  - apply String.eqb_eq in Hpw. simpl. unfold_service.
    rewrite Hfind. simpl.
    destruct (Prisma.user_by_id _ _) as [u|]; [|exfalso; auto]. simpl.
    rewrite Hact, orb_true_r. simpl.
    eexists. eexists. split; [reflexivity|]. simpl.
    repeat split; auto. intros Hneq. exfalso. auto.
  - apply String.eqb_neq in Hpw. simpl.
    eexists. eexists. split; [reflexivity|].
    repeat split; auto. intros Heq. exfalso. auto.
Qed.

(** ** authenticate *)

(** C5. A call of authenticate that fails because no user has the given
    email and a call that fails because the password does not verify
    against the stored hash throw the same exception with the same fixed
    message: the caller cannot tell the two causes apart. *)
Theorem authenticate_failures_indistinguishable c1 w1 c2 w2 u :
  Prisma.user_by_email (AuthenticateDto.email c1) (users w1) = None ->
  Prisma.user_by_email (AuthenticateDto.email c2) (users w2) = Some u ->
  compareHash (AuthenticateDto.password c2) (User.password u) = false ->
  fst (authenticate c1 w1)
  = Throw (BadRequestException msgIncorrectCombination)
  /\ fst (authenticate c2 w2) = fst (authenticate c1 w1).
Proof.
  intros Hnone Hsome Hcmp.
  unfold AuthService.authenticate, AuthService.hashProvider_compareHash.
  unfold_service. rewrite Hnone, Hsome. simpl. rewrite Hcmp. simpl.
  split; reflexivity.
Qed.

(** C8. When the user is found by its email and the password verifies,
    authenticate returns the token signed with the configured secret, the
    user's id as subject and the configured expiry, together with the user
    without its password: id, email and name only, whatever the stored
    password is. *)
Theorem authenticate_success c w u :
  Prisma.user_by_email (AuthenticateDto.email c) (users w) = Some u ->
  compareHash (AuthenticateDto.password c) (User.password u) = true ->
  exists r,
    fst (authenticate c w) = Ok r
    /\ IAuthResponse.token r =
       sign (JwtConfig.secret authConfig_jwt)
         {| SignOptions.subject := User.id u;
            SignOptions.expiresIn := JwtConfig.expiresIn authConfig_jwt |}
    /\ IAuthResponse.user r
       = UserModel.mk (User.id u) (User.email u) (User.name u)
    /\ (forall p, plainToClass (User.with_password p u)
                  = IAuthResponse.user r).
Proof.
  intros Hsome Hcmp.
  unfold AuthService.authenticate, AuthService.hashProvider_compareHash.
  unfold_service. rewrite Hsome. simpl. rewrite Hcmp. simpl.
  eexists. repeat split.
Qed.

(** ** resetPassword *)

(** C6. When the password differs from its confirmation, resetPassword
    throws the mismatch exception at once: the world it leaves is the world
    it found, so neither table was written and the trace has no new entry,
    that is, no table was read either. *)
Theorem resetPassword_mismatch_before_lookup now d w :
  ResetPasswordDto.password d <> ResetPasswordDto.passwordConfirmation d ->
  resetPassword now d w
  = (Throw (BadRequestException msgPasswordMismatch), w).
Proof.
  intros Hneq. unfold AuthService.resetPassword.
  apply String.eqb_neq in Hneq. rewrite Hneq. reflexivity.
Qed.

(** C7. resetPassword answers an unknown token id and a stored token whose
    user is not stored with the same exception and the same fixed
    message. *)
Theorem resetPassword_invalid_token_indistinguishable
  now1 d1 w1 now2 d2 w2 t :
  ResetPasswordDto.password d1 = ResetPasswordDto.passwordConfirmation d1 ->
  Prisma.token_by_id (ResetPasswordDto.token d1) (resetPasswordTokens w1)
  = None ->
  ResetPasswordDto.password d2 = ResetPasswordDto.passwordConfirmation d2 ->
  Prisma.token_by_id (ResetPasswordDto.token d2) (resetPasswordTokens w2)
  = Some t ->
  Prisma.user_by_id (ResetPasswordToken.userId t) (users w2) = None ->
  fst (resetPassword now1 d1 w1)
  = Throw (BadRequestException msgInvalidResetToken)
  /\ fst (resetPassword now2 d2 w2) = fst (resetPassword now1 d1 w1).
Proof.
  intros Hpw1 Hnone Hpw2 Hsome Huser.
  unfold AuthService.resetPassword.
  apply String.eqb_eq in Hpw1, Hpw2. rewrite Hpw1, Hpw2. simpl.
  unfold_service. rewrite Hnone, Hsome. simpl. rewrite Huser. simpl.
  split; reflexivity.
Qed.

(** C4. When the password equals its confirmation, the token is stored,
    its user is stored, the token is active and the clock is not past its
    expiry, resetPassword succeeds; the user's password is then the hash of
    the new password, the token is inactive, and the collaborators were
    called in this order: token lookup, user lookup, hashing, user update,
    token update. *)
Theorem resetPassword_success now d w t u :
  ResetPasswordDto.password d = ResetPasswordDto.passwordConfirmation d ->
  Prisma.token_by_id (ResetPasswordDto.token d) (resetPasswordTokens w)
  = Some t ->
  Prisma.user_by_id (ResetPasswordToken.userId t) (users w) = Some u ->
  ResetPasswordToken.active t = true ->
  now <= ResetPasswordToken.expiresIn t ->
  exists w',
    resetPassword now d w = (Ok tt, w')
    /\ Prisma.user_by_id (User.id u) (users w')
       = Some (User.with_password
                 (generateHash (ResetPasswordDto.password d)) u)
    /\ Prisma.token_by_id (ResetPasswordDto.token d) (resetPasswordTokens w')
       = Some (ResetPasswordToken.with_active false t)
    /\ trace w' =
       trace w ++
       [ TokenFindUnique (ResetPasswordDto.token d);
         UserFindUniqueById (ResetPasswordToken.userId t);
         GenerateHash (ResetPasswordDto.password d);
         UserUpdate (User.id u)
           (generateHash (ResetPasswordDto.password d));
         TokenUpdate (ResetPasswordDto.token d) false ].
Proof.
  intros Hpw Ht Hu Hact Hexp.
  pose proof (user_by_id_id _ _ _ Hu) as Hui.
  pose proof (token_by_id_id _ _ _ Ht) as Hti.
  eexists. split; [apply (resetPassword_ok now d w t u); assumption|].
  simpl. repeat split.
  - rewrite user_by_id_set_password.
    rewrite Hui in *. rewrite Hu. simpl.
    rewrite Hui, String.eqb_refl. reflexivity.
  - rewrite token_by_id_set_active, Ht. simpl.
    rewrite String.eqb_refl. reflexivity.
  - rewrite Hti. reflexivity.
Qed.

(** C9. Whenever resetPassword fails, both tables are what they were
    before the call: no password and no active flag has changed.  The
    failures are the three exceptions of the validation sequence; the two
    updates cannot fail, since the rows they address were just read. *)
Theorem resetPassword_failure_atomic now d w e w' :
  resetPassword now d w = (Throw e, w') ->
  users w' = users w
  /\ resetPasswordTokens w' = resetPasswordTokens w
  /\ (e = BadRequestException msgPasswordMismatch
      \/ e = BadRequestException msgInvalidResetToken
      \/ e = BadRequestException msgExpiredResetToken).
Proof.
  intros H. destruct (resetPassword_throw now d w e w' H) as (He & Hu & Ht).
  auto.
Qed.

(** C3, as amended.  Once resetPassword has succeeded with a token, every
    later resetPassword that presents the same token, after any number of
    calls of the service, fails and leaves both tables untouched; the
    exception is the expired-token one whenever the request's password
    equals its confirmation, and the mismatch one otherwise. *)
Theorem reset_token_single_use now d w w1 w2 now2 d2 :
  resetPassword now d w = (Ok tt, w1) ->
  calls w1 w2 ->
  ResetPasswordDto.token d2 = ResetPasswordDto.token d ->
  exists e w3,
    resetPassword now2 d2 w2 = (Throw e, w3)
    /\ users w3 = users w2
    /\ resetPasswordTokens w3 = resetPasswordTokens w2
    /\ (ResetPasswordDto.password d2
        = ResetPasswordDto.passwordConfirmation d2
        -> e = BadRequestException msgExpiredResetToken)
    /\ (ResetPasswordDto.password d2
        <> ResetPasswordDto.passwordConfirmation d2
        -> e = BadRequestException msgPasswordMismatch).
Proof.
  intros Hok Hcalls Htok.
  apply consumed_reset_fails. rewrite Htok.
  apply (consumed_calls _ w1 w2 Hcalls).
  exact (consumed_after_reset now d w w1 Hok).
Qed.

(** ** generateResetPasswordToken *)

(** C1. generateResetPasswordToken reads the user's most recently created
    token: a token of that user such that none of the user's tokens was
    created later, or nothing when the user has no token.  The flag
    isLastTokenExpired is true exactly when there is no such token, or it
    is inactive, or its expiresIn is strictly before the clock.  When the
    flag is true, the configured number of minutes is a number that added
    to the clock gives a valid date, and the database hands out an unused
    id, a new row is appended and returned: active, owned by the user,
    expiring that many minutes after the clock, with an id no stored token
    has.  When the flag is true and the sum is not a valid date, the call
    throws the RangeError of toISOString and no row is handed to the
    database.  When the flag is false the last token itself is returned
    and the token table is left as it was: the only call made is the
    lookup. *)
Theorem generateResetPasswordToken_policy env userId w :
  let lastToken :=
    Prisma.newest (Prisma.of_user userId (resetPasswordTokens w)) in
  let now := Ambient.checkedAt env in
  (lastToken = None <->
   forall r, In r (resetPasswordTokens w) ->
             ResetPasswordToken.userId r <> userId)
  /\ (forall t, lastToken = Some t ->
        In t (resetPasswordTokens w)
        /\ ResetPasswordToken.userId t = userId
        /\ forall r, In r (resetPasswordTokens w) ->
                     ResetPasswordToken.userId r = userId ->
                     ResetPasswordToken.createdAt r
                     <= ResetPasswordToken.createdAt t)
  /\ (isLastTokenExpired lastToken now = true <->
      lastToken = None
      \/ exists t, lastToken = Some t
                   /\ (ResetPasswordToken.active t = false
                       \/ ResetPasswordToken.expiresIn t < now))
  /\ (isLastTokenExpired lastToken now = true ->
      forall minutes,
        RESET_PASSWORD_TOKEN_EXPIRES_IN = Some minutes ->
        - maxTimeValue <= Ambient.mintedAt env + minutes * 60000
                       <= maxTimeValue ->
        ~ In (Ambient.rowId env)
             (map ResetPasswordToken.id (resetPasswordTokens w)) ->
        exists tok w',
          generateResetPasswordToken env userId w = (Ok tok, w')
          /\ ResetPasswordToken.active tok = true
          /\ ResetPasswordToken.expiresIn tok =
             Ambient.mintedAt env + minutes * 60000
          /\ ResetPasswordToken.userId tok = userId
          /\ (forall r, In r (resetPasswordTokens w) ->
                        ResetPasswordToken.id r <> ResetPasswordToken.id tok)
          /\ resetPasswordTokens w' = resetPasswordTokens w ++ [tok]
          /\ users w' = users w
          /\ trace w' =
             trace w ++
             [ TokenFindFirst userId;
               TokenCreate userId true (ResetPasswordToken.expiresIn tok) ])
  /\ (isLastTokenExpired lastToken now = true ->
      addMinutes (Ambient.mintedAt env) RESET_PASSWORD_TOKEN_EXPIRES_IN
      = None ->
      exists w',
        generateResetPasswordToken env userId w
        = (Throw (RangeError msgInvalidTimeValue), w')
        /\ resetPasswordTokens w' = resetPasswordTokens w
        /\ users w' = users w
        /\ trace w' = trace w ++ [TokenFindFirst userId])
  /\ (isLastTokenExpired lastToken now = false ->
      exists t w',
        lastToken = Some t
        /\ generateResetPasswordToken env userId w = (Ok t, w')
        /\ resetPasswordTokens w' = resetPasswordTokens w
        /\ users w' = users w
        /\ trace w' = trace w ++ [TokenFindFirst userId]).
Proof.
  intros lastToken now. subst now.
  split; [|split; [|split; [|split; [|split]]]].
  - subst lastToken. rewrite newest_none. split.
    + intros Hnil r Hr Huid.
      assert (Hin : In r (Prisma.of_user userId (resetPasswordTokens w)))
        by (apply of_user_In; auto).
      rewrite Hnil in Hin. exact Hin.
    + intros Hall.
      destruct (Prisma.of_user userId (resetPasswordTokens w)) as [|r l] eqn:Hl;
        [reflexivity|].
      assert (Hin : In r (Prisma.of_user userId (resetPasswordTokens w)))
        by (rewrite Hl; left; reflexivity).
      apply of_user_In in Hin. destruct Hin as [Hin Huid].
      exfalso. exact (Hall r Hin Huid).
  - intros t Ht. subst lastToken. apply newest_some in Ht.
    destruct Ht as [Hin Hmax]. apply of_user_In in Hin.
    destruct Hin as [Hin Huid]. repeat split; auto.
    intros r Hr Hruid. apply Hmax. apply of_user_In. auto.
  - apply isLastTokenExpired_iff.
  - intros Hexp minutes Hcfg [Hlo Hhi] Hfresh.
    apply token_by_id_fresh in Hfresh.
    assert (Hdate : addMinutes (Ambient.mintedAt env)
                      RESET_PASSWORD_TOKEN_EXPIRES_IN
                    = Some (Ambient.mintedAt env + minutes * 60000)).
    { rewrite Hcfg. unfold addMinutes, timeClip.
      apply Z.leb_le in Hlo, Hhi. rewrite Hlo, Hhi. reflexivity. }
    exists (minted env userId (Ambient.mintedAt env + minutes * 60000)).
    eexists.
    split; [apply (generate_mint env userId w _ Hexp Hdate Hfresh)|].
    simpl. repeat split; auto.
    intros r Hr Hid. apply token_by_id_fresh in Hfresh. apply Hfresh.
    rewrite <- Hid. apply in_map. exact Hr.
  - intros Hexp Hdate. eexists.
    split; [apply (generate_invalid_date env userId w Hexp Hdate)|].
    simpl. auto.
  - intros Hexp. destruct lastToken as [t|] eqn:Hlast; [|discriminate].
    exists t. eexists. split; [reflexivity|].
    split; [apply (generate_reuse env userId w t Hlast Hexp)|].
    simpl. auto.
Qed.

(** C2. Two calls of generateResetPasswordToken for the same user, one
    right after the other: when the first returns a token and the clock of
    the second is not past that token's expiry, the second returns the very
    same token (so the same id) and stores nothing.  The database is taken
    to stamp a new row later than the rows the user already has. *)
Theorem generateResetPasswordToken_idempotent env1 env2 userId w tok1 w1 :
  (forall r, In r (resetPasswordTokens w) ->
             ResetPasswordToken.userId r = userId ->
             ResetPasswordToken.createdAt r < Ambient.rowCreatedAt env1) ->
  generateResetPasswordToken env1 userId w = (Ok tok1, w1) ->
  Ambient.checkedAt env2 <= ResetPasswordToken.expiresIn tok1 ->
  exists tok2 w2,
    generateResetPasswordToken env2 userId w1 = (Ok tok2, w2)
    /\ ResetPasswordToken.id tok2 = ResetPasswordToken.id tok1
    /\ tok2 = tok1
    /\ ResetPasswordToken.active tok1 = true
    /\ resetPasswordTokens w2 = resetPasswordTokens w1.
Proof.
  intros Hclock Hgen Hlive.
  assert (Hlast : Prisma.newest
                    (Prisma.of_user userId (resetPasswordTokens w1))
                  = Some tok1
                  /\ ResetPasswordToken.active tok1 = true).
  { apply generate_ok_inv in Hgen. simpl in Hgen.
    destruct Hgen as [(Hexp & Hl & Hts)|(Hexp & Hid & (expiresIn & Hdate & Htok) & Hts)].
    - rewrite Hts, Hl. split; [reflexivity|].
      rewrite Hl in Hexp. simpl in Hexp.
      apply orb_false_iff in Hexp. destruct Hexp as [Hact _].
      apply negb_false_iff in Hact. exact Hact.
    - rewrite Hts, of_user_app. subst tok1. split; [|reflexivity].
      unfold Prisma.of_user at 2. simpl. rewrite String.eqb_refl.
      apply newest_app_later. intros x Hx. apply of_user_In in Hx.
      destruct Hx as [Hx Huid]. simpl. exact (Hclock x Hx Huid). }
  destruct Hlast as [Hlast Hact].
  assert (Hexp2 : isLastTokenExpired (Some tok1) (Ambient.checkedAt env2)
                  = false).
  { simpl. rewrite Hact. simpl. apply Z.ltb_ge. exact Hlive. }
  exists tok1. eexists.
  split; [apply (generate_reuse env2 userId w1 tok1 Hlast Hexp2)|].
  simpl. auto.
Qed.

(** C10. Both expiry tests are strict and agree at the boundary.  For an
    active token whose expiresIn is exactly the clock's reading,
    generateResetPasswordToken hands the token back without storing a row,
    and resetPassword goes through, leaving the token inactive; one
    millisecond later both tests turn the token down. *)
Theorem expiry_boundary_agrees env userId now d w t u :
  Prisma.newest (Prisma.of_user userId (resetPasswordTokens w)) = Some t ->
  Prisma.token_by_id (ResetPasswordDto.token d) (resetPasswordTokens w)
  = Some t ->
  Prisma.user_by_id (ResetPasswordToken.userId t) (users w) = Some u ->
  ResetPasswordDto.password d = ResetPasswordDto.passwordConfirmation d ->
  ResetPasswordToken.active t = true ->
  ResetPasswordToken.expiresIn t = Ambient.checkedAt env ->
  ResetPasswordToken.expiresIn t = now ->
  (exists w', generateResetPasswordToken env userId w = (Ok t, w')
              /\ resetPasswordTokens w' = resetPasswordTokens w)
  /\ (exists w', resetPassword now d w = (Ok tt, w')
                 /\ Prisma.token_by_id (ResetPasswordDto.token d)
                      (resetPasswordTokens w')
                    = Some (ResetPasswordToken.with_active false t))
  /\ isLastTokenExpired (Some t) (Ambient.checkedAt env + 1) = true
  /\ (isAfter (now + 1) (ResetPasswordToken.expiresIn t)
      || negb (ResetPasswordToken.active t)) = true.
Proof.
  intros Hlast Ht Hu Hpw Hact Hgen Hnow.
  split; [|split; [|split]].
  - eexists. split.
    + apply (generate_reuse env userId w t Hlast).
      simpl. rewrite Hact, Hgen. simpl. apply Z.ltb_irrefl.
    + reflexivity.
  - eexists. split.
    + apply (resetPassword_ok now d w t u Hpw Ht Hu Hact). lia.
    + simpl. rewrite token_by_id_set_active, Ht. simpl.
      rewrite (token_by_id_id _ _ _ Ht), String.eqb_refl. reflexivity.
  - simpl. rewrite Hact. simpl. apply Z.ltb_lt. lia.
  - unfold isAfter. rewrite Hact. simpl. rewrite orb_false_r.
    apply Z.ltb_lt. lia.
Qed.

End AuthServiceRuns.

(** ** The theorems at concrete requests *)

(** An unknown email and a wrong password for a known one. *)
Lemma authenticate_failures_indistinguishable_witness :
  fst (Sample.authenticate
         (AuthenticateDto.mk "bob@ewallet.com" "abc12345") Sample.registered)
  = Throw (BadRequestException msgIncorrectCombination)
  /\ fst (Sample.authenticate
            (AuthenticateDto.mk "alice@ewallet.com" "abc1234")
            Sample.registered)
     = fst (Sample.authenticate
              (AuthenticateDto.mk "bob@ewallet.com" "abc12345")
              Sample.registered).
Proof.
  apply (@authenticate_failures_indistinguishable Sample.hashProvider
           Sample.sign Sample.jwt
           (AuthenticateDto.mk "bob@ewallet.com" "abc12345") Sample.registered
           (AuthenticateDto.mk "alice@ewallet.com" "abc1234")
           Sample.registered Sample.alice); reflexivity.
Defined.

(** The right password for a known email. *)
Lemma authenticate_success_witness :
  exists r,
    fst (Sample.authenticate
           (AuthenticateDto.mk "alice@ewallet.com" "abc12345")
           Sample.registered) = Ok r
    /\ IAuthResponse.token r = "u1.1d.secret"
    /\ IAuthResponse.user r = UserModel.mk "u1" "alice@ewallet.com" "Alice"
    /\ (forall p, plainToClass (User.with_password p Sample.alice)
                  = IAuthResponse.user r).
Proof.
  apply (@authenticate_success Sample.hashProvider Sample.sign Sample.jwt
           (AuthenticateDto.mk "alice@ewallet.com" "abc12345")
           Sample.registered Sample.alice); reflexivity.
Defined.

(** A confirmation that differs from the password. *)
Lemma resetPassword_mismatch_before_lookup_witness :
  Sample.resetPassword 10 (ResetPasswordDto.mk "T1" "newpass1" "newpass2")
    Sample.issued
  = (Throw (BadRequestException msgPasswordMismatch), Sample.issued).
Proof.
  apply (@resetPassword_mismatch_before_lookup Sample.hashProvider 10
           (ResetPasswordDto.mk "T1" "newpass1" "newpass2") Sample.issued).
  simpl. discriminate.
Defined.

(** A token id that is not stored, and a stored token whose user is not. *)
Lemma resetPassword_invalid_token_indistinguishable_witness :
  fst (Sample.resetPassword 10 (ResetPasswordDto.mk "T9" "newpass1" "newpass1")
         Sample.issued)
  = Throw (BadRequestException msgInvalidResetToken)
  /\ fst (Sample.resetPassword 10
            (ResetPasswordDto.mk "T1" "newpass1" "newpass1")
            (mkWorld [] [Sample.T1] []))
     = fst (Sample.resetPassword 10
              (ResetPasswordDto.mk "T9" "newpass1" "newpass1") Sample.issued).
Proof.
  apply (@resetPassword_invalid_token_indistinguishable Sample.hashProvider
           10 (ResetPasswordDto.mk "T9" "newpass1" "newpass1") Sample.issued
           10 (ResetPasswordDto.mk "T1" "newpass1" "newpass1")
           (mkWorld [] [Sample.T1] []) Sample.T1); reflexivity.
Defined.

(** The reset of the scenario of spec 8: token T1, new password
    "newpass1". *)
Lemma resetPassword_success_witness :
  exists w',
    Sample.resetPassword 10 (ResetPasswordDto.mk "T1" "newpass1" "newpass1")
      Sample.issued = (Ok tt, w')
    /\ Prisma.user_by_id "u1" (users w')
       = Some (User.with_password "hashed:newpass1" Sample.alice)
    /\ Prisma.token_by_id "T1" (resetPasswordTokens w')
       = Some (ResetPasswordToken.with_active false Sample.T1)
    /\ trace w' =
       [ TokenFindUnique "T1"; UserFindUniqueById "u1";
         GenerateHash "newpass1"; UserUpdate "u1" "hashed:newpass1";
         TokenUpdate "T1" false ].
Proof.
  apply (@resetPassword_success Sample.hashProvider 10
           (ResetPasswordDto.mk "T1" "newpass1" "newpass1") Sample.issued
           Sample.T1 Sample.alice); try reflexivity.
  simpl. lia.
Defined.

(** A reset attempted one millisecond after the token's expiry. *)
Lemma resetPassword_failure_atomic_witness :
  let w' :=
    snd (Sample.resetPassword 1800001
           (ResetPasswordDto.mk "T1" "newpass1" "newpass1") Sample.issued) in
  users w' = users Sample.issued
  /\ resetPasswordTokens w' = resetPasswordTokens Sample.issued
  /\ (BadRequestException msgExpiredResetToken
      = BadRequestException msgPasswordMismatch
      \/ BadRequestException msgExpiredResetToken
         = BadRequestException msgInvalidResetToken
      \/ BadRequestException msgExpiredResetToken
         = BadRequestException msgExpiredResetToken).
Proof.
  apply (@resetPassword_failure_atomic Sample.hashProvider 1800001
           (ResetPasswordDto.mk "T1" "newpass1" "newpass1") Sample.issued).
  reflexivity.
Defined.

(** The scenario of spec 8: T1 is used once, the user asks for a token
    again, and T1 is presented a second time. *)
Lemma reset_token_single_use_witness :
  let d := ResetPasswordDto.mk "T1" "newpass1" "newpass1" in
  let w1 := snd (Sample.resetPassword 10 d Sample.issued) in
  let w2 :=
    snd (Sample.generateResetPasswordToken
           (Ambient.mk 20 21 "T2" 22) "u1" w1) in
  exists e w3,
    Sample.resetPassword 30 d w2 = (Throw e, w3)
    /\ users w3 = users w2
    /\ resetPasswordTokens w3 = resetPasswordTokens w2
    /\ (ResetPasswordDto.password d = ResetPasswordDto.passwordConfirmation d
        -> e = BadRequestException msgExpiredResetToken)
    /\ (ResetPasswordDto.password d <> ResetPasswordDto.passwordConfirmation d
        -> e = BadRequestException msgPasswordMismatch).
Proof.
  intros d w1 w2.
  apply (@reset_token_single_use Sample.hashProvider Sample.sign Sample.jwt
           Sample.ttl 10 d Sample.issued w1 w2 30 d).
  - reflexivity.
  - apply rt_step.
    apply (@AuthService.call_generateResetPasswordToken Sample.hashProvider
             Sample.sign Sample.jwt Sample.ttl
             (Ambient.mk 20 21 "T2" 22) "u1" w1
             (fst (Sample.generateResetPasswordToken
                     (Ambient.mk 20 21 "T2" 22) "u1" w1)) w2).
    reflexivity.
  - reflexivity.
Defined.

(** C3 as first stated does not hold: after T1 has been used, a request
    that presents T1 with a confirmation unlike its password is turned down
    for the mismatch, not for the expired token. *)
Lemma reset_token_reuse_not_always_expired :
  let w1 :=
    snd (Sample.resetPassword 10
           (ResetPasswordDto.mk "T1" "newpass1" "newpass1") Sample.issued) in
  fst (Sample.resetPassword 10
         (ResetPasswordDto.mk "T1" "newpass1" "newpass1") Sample.issued)
  = Ok tt
  /\ fst (Sample.resetPassword 11
            (ResetPasswordDto.mk "T1" "newpass2" "newpass3") w1)
     = Throw (BadRequestException msgPasswordMismatch)
  /\ fst (Sample.resetPassword 11
            (ResetPasswordDto.mk "T1" "newpass2" "newpass3") w1)
     <> Throw (BadRequestException msgExpiredResetToken).
Proof.
  vm_compute. repeat split. discriminate.
Qed.

(** A request made one millisecond after T1 has expired: T2 is minted
    beside it. *)
Lemma generateResetPasswordToken_policy_witness :
  exists tok w',
    Sample.generateResetPasswordToken
      (Ambient.mk 1800001 1800002 "T2" 1800003) "u1" Sample.issued
    = (Ok tok, w')
    /\ ResetPasswordToken.active tok = true
    /\ ResetPasswordToken.expiresIn tok = 1800002 + 30 * 60000
    /\ ResetPasswordToken.userId tok = "u1"
    /\ (forall r, In r (resetPasswordTokens Sample.issued) ->
                  ResetPasswordToken.id r <> ResetPasswordToken.id tok)
    /\ resetPasswordTokens w' = resetPasswordTokens Sample.issued ++ [tok]
    /\ users w' = users Sample.issued
    /\ trace w' =
       trace Sample.issued ++
       [ TokenFindFirst "u1";
         TokenCreate "u1" true (ResetPasswordToken.expiresIn tok) ].
Proof.
  destruct (generateResetPasswordToken_policy Sample.ttl
              (Ambient.mk 1800001 1800002 "T2" 1800003) "u1" Sample.issued)
    as (_ & _ & _ & Hmint & _).
  apply (Hmint eq_refl 30 eq_refl).
  - unfold maxTimeValue. simpl. lia.
  - simpl. intros [H|[]]. discriminate.
Defined.

(** Two requests five minutes apart, thirty minutes to live. *)
Lemma generateResetPasswordToken_idempotent_witness :
  let w1 :=
    snd (Sample.generateResetPasswordToken (Ambient.mk 5 6 "T1" 7) "u1"
           Sample.registered) in
  exists tok2 w2,
    Sample.generateResetPasswordToken (Ambient.mk 300005 300006 "T2" 300007)
      "u1" w1 = (Ok tok2, w2)
    /\ ResetPasswordToken.id tok2 = "T1"
    /\ tok2 = ResetPasswordToken.mk "T1" "u1" true 1800006 7
    /\ ResetPasswordToken.active
         (ResetPasswordToken.mk "T1" "u1" true 1800006 7) = true
    /\ resetPasswordTokens w2 = resetPasswordTokens w1.
Proof.
  intros w1.
  apply (generateResetPasswordToken_idempotent Sample.ttl
           (Ambient.mk 5 6 "T1" 7) (Ambient.mk 300005 300006 "T2" 300007)
           "u1" Sample.registered
           (ResetPasswordToken.mk "T1" "u1" true 1800006 7) w1).
  - simpl. tauto.
  - reflexivity.
  - simpl. lia.
Defined.

(** T1 expires at 1800000; both operations are run at that very reading. *)
Lemma expiry_boundary_agrees_witness :
  (exists w',
      Sample.generateResetPasswordToken
        (Ambient.mk 1800000 1800000 "T2" 1800000) "u1" Sample.issued
      = (Ok Sample.T1, w')
      /\ resetPasswordTokens w' = resetPasswordTokens Sample.issued)
  /\ (exists w',
         Sample.resetPassword 1800000
           (ResetPasswordDto.mk "T1" "newpass1" "newpass1") Sample.issued
         = (Ok tt, w')
         /\ Prisma.token_by_id "T1" (resetPasswordTokens w')
            = Some (ResetPasswordToken.with_active false Sample.T1))
  /\ isLastTokenExpired (Some Sample.T1) (1800000 + 1) = true
  /\ (isAfter (1800000 + 1) (ResetPasswordToken.expiresIn Sample.T1)
      || negb (ResetPasswordToken.active Sample.T1)) = true.
Proof.
  apply (@expiry_boundary_agrees Sample.hashProvider Sample.ttl
           (Ambient.mk 1800000 1800000 "T2" 1800000) "u1" 1800000
           (ResetPasswordDto.mk "T1" "newpass1" "newpass1") Sample.issued
           Sample.T1 Sample.alice); reflexivity.
Defined.

(** ** Further facts about the table queries *)

Section MoreTableFacts.

Lemma find_app_missing {A : Type} (p : A -> bool) (l l' : list A) :
  find p l = None -> find p (l ++ l') = find p l'.
Proof.
  induction l as [|y l IH]; simpl; [reflexivity|].
  destruct (p y); [discriminate|exact IH].
Qed.

Lemma user_by_email_set_password e j p us :
  Prisma.user_by_email e (Prisma.set_password j p us) =
  option_map (fun u => if String.eqb (User.id u) j
                       then User.with_password p u else u)
             (Prisma.user_by_email e us).
Proof.
  unfold Prisma.user_by_email, Prisma.set_password.
  apply find_map_stable. intros u.
  destruct (String.eqb (User.id u) j); reflexivity.
Qed.

(** Where ids are not repeated, a stored row is the one its id finds. *)
Lemma token_by_id_unique ts t :
  NoDup (map ResetPasswordToken.id ts) ->
  In t ts ->
  Prisma.token_by_id (ResetPasswordToken.id t) ts = Some t.
Proof.
  unfold Prisma.token_by_id.
  induction ts as [|x rest IH]; simpl; intros Hnd Hin; [contradiction|].
  inversion Hnd as [|? ? Hnotin Hnd']; subst.
  destruct Hin as [->|Hin].
  - rewrite String.eqb_refl. reflexivity.
  - destruct (String.eqb (ResetPasswordToken.id x) (ResetPasswordToken.id t))
      eqn:Heq.
    + apply String.eqb_eq in Heq. exfalso. apply Hnotin. rewrite Heq.
      apply in_map. exact Hin.
    + apply IH; assumption.
Qed.

Lemma of_user_set_active uid j a ts :
  Prisma.of_user uid (Prisma.set_active j a ts) =
  Prisma.set_active j a (Prisma.of_user uid ts).
Proof.
  unfold Prisma.of_user, Prisma.set_active.
  induction ts as [|x rest IH]; simpl; [reflexivity|].
  assert (Hu : ResetPasswordToken.userId
                 (if String.eqb (ResetPasswordToken.id x) j
                  then ResetPasswordToken.with_active a x else x)
               = ResetPasswordToken.userId x)
    by (destruct (String.eqb _ j); reflexivity).
  rewrite Hu.
  destruct (String.eqb (ResetPasswordToken.userId x) uid); simpl;
    rewrite IH; reflexivity.
Qed.

Lemma newest_set_active j a ts :
  Prisma.newest (Prisma.set_active j a ts) =
  option_map (fun r => if String.eqb (ResetPasswordToken.id r) j
                       then ResetPasswordToken.with_active a r else r)
             (Prisma.newest ts).
Proof.
  unfold Prisma.set_active.
  induction ts as [|x rest IH]; simpl; [reflexivity|].
  rewrite IH. destruct (Prisma.newest rest) as [m|]; simpl; [|reflexivity].
  assert (Hc : forall r,
             ResetPasswordToken.createdAt
               (if String.eqb (ResetPasswordToken.id r) j
                then ResetPasswordToken.with_active a r else r)
             = ResetPasswordToken.createdAt r)
    by (intros r; destruct (String.eqb _ j); reflexivity).
  rewrite !Hc. destruct (_ <=? _); reflexivity.
Qed.

Lemma usable_iff now t :
  usable now t = true <->
  ResetPasswordToken.active t = true
  /\ now <= ResetPasswordToken.expiresIn t.
Proof.
  unfold usable. rewrite andb_true_iff, negb_true_iff, Z.ltb_ge. tauto.
Qed.

(** A token usable now was usable at every earlier reading. *)
Lemma usable_earlier now now' t :
  now <= now' -> usable now' t = true -> usable now t = true.
Proof. rewrite !usable_iff. intros Hle [Ha He]. split; [exact Ha|lia]. Qed.

Lemma usable_not_expired now t :
  usable now t = true <-> isLastTokenExpired (Some t) now = false.
Proof.
  unfold usable. simpl.
  destruct (ResetPasswordToken.active t), (_ <? _); simpl;
    split; congruence.
Qed.

Lemma Forall2_same {A : Type} (R : A -> A -> Prop) (l : list A) :
  (forall x, R x x) -> Forall2 R l l.
Proof. intros HR. induction l; constructor; auto. Qed.

Lemma Forall2_map_r {A : Type} (R : A -> A -> Prop) (f : A -> A)
  (l : list A) :
  (forall x, R x (f x)) -> Forall2 R l (map f l).
Proof. intros HR. induction l; simpl; constructor; auto. Qed.

Lemma Forall2_chain {A : Type} (R : A -> A -> Prop) (l1 l2 l3 : list A) :
  (forall x y z, R x y -> R y z -> R x z) ->
  Forall2 R l1 l2 -> Forall2 R l2 l3 -> Forall2 R l1 l3.
Proof.
  intros HR H12. revert l3.
  induction H12 as [|x y l1 l2 Hxy _ IH]; intros l3 H23;
    inversion H23; subst; constructor; eauto.
Qed.

End MoreTableFacts.

(** ** How the calls frame and compose *)

Section AuthServiceFlows.

Context {hashProvider : HashProvider}.
Variable sign : string -> SignOptions.t -> string.
Variable authConfig_jwt : JwtConfig.t.
Variable RESET_PASSWORD_TOKEN_EXPIRES_IN : option Z.

Abbreviation authenticate := (AuthService.authenticate sign authConfig_jwt).
Abbreviation resetPassword := AuthService.resetPassword.
Abbreviation generateResetPasswordToken :=
  (AuthService.generateResetPasswordToken RESET_PASSWORD_TOKEN_EXPIRES_IN).
Abbreviation minted := AuthService.minted.
Abbreviation calls :=
  (AuthService.calls sign authConfig_jwt RESET_PASSWORD_TOKEN_EXPIRES_IN).

(** Every run of [generateResetPasswordToken], failing ones included:
    the token table is left alone, or the minted row is appended. *)
Lemma generate_cases env uid w r w' :
  generateResetPasswordToken env uid w = (r, w') ->
  users w' = users w
  /\ (resetPasswordTokens w' = resetPasswordTokens w
      \/ exists expiresIn,
           isLastTokenExpired
             (Prisma.newest (Prisma.of_user uid (resetPasswordTokens w)))
             (Ambient.checkedAt env) = true
           /\ Prisma.token_by_id (Ambient.rowId env) (resetPasswordTokens w)
              = None
           /\ addMinutes (Ambient.mintedAt env)
                RESET_PASSWORD_TOKEN_EXPIRES_IN = Some expiresIn
           /\ r = Ok (minted env uid expiresIn)
           /\ resetPasswordTokens w' =
              resetPasswordTokens w ++ [minted env uid expiresIn]).
Proof.
  destruct (isLastTokenExpired
              (Prisma.newest (Prisma.of_user uid (resetPasswordTokens w)))
              (Ambient.checkedAt env)) eqn:Hexp.
  - destruct (addMinutes (Ambient.mintedAt env)
                RESET_PASSWORD_TOKEN_EXPIRES_IN) as [expiresIn|] eqn:Hdate.
    + destruct (Prisma.token_by_id (Ambient.rowId env)
                  (resetPasswordTokens w)) as [x|] eqn:Hid.
      * unfold AuthService.generateResetPasswordToken. unfold_service.
        destruct (Prisma.newest _) as [t|]; simpl in Hexp;
          [rewrite Hexp|]; simpl; rewrite Hdate; simpl; rewrite Hid; simpl;
          intros H; inversion H; subst; simpl; auto.
      * rewrite (generate_mint _ env uid w expiresIn Hexp Hdate Hid).
        intros H; inversion H; subst; simpl. split; [reflexivity|].
        right. exists expiresIn. auto.
    + rewrite (generate_invalid_date _ env uid w Hexp Hdate).
      intros H; inversion H; subst; simpl. auto.
  - destruct (Prisma.newest (Prisma.of_user uid (resetPasswordTokens w)))
      as [t|] eqn:Hlast; [|discriminate].
    rewrite (generate_reuse _ env uid w t Hlast Hexp).
    intros H; inversion H; subst; simpl. auto.
Qed.

(** A run that returns a token leaves it stored as the newest of its user,
    and active, when a new row is stamped later than the user's rows. *)
Lemma generate_returns_newest env uid w tok w' :
  (forall r, In r (resetPasswordTokens w) ->
             ResetPasswordToken.userId r = uid ->
             ResetPasswordToken.createdAt r < Ambient.rowCreatedAt env) ->
  generateResetPasswordToken env uid w = (Ok tok, w') ->
  Prisma.newest (Prisma.of_user uid (resetPasswordTokens w')) = Some tok
  /\ ResetPasswordToken.active tok = true.
Proof.
  intros Hclock Hgen. apply generate_ok_inv in Hgen. simpl in Hgen.
  destruct Hgen as [(Hexp & Hl & Hts)|(Hexp & Hid & (expiresIn & Hdate & Htok) & Hts)].
  - rewrite Hts, Hl. split; [reflexivity|].
    rewrite Hl in Hexp. apply usable_not_expired, usable_iff in Hexp.
    exact (proj1 Hexp).
  - rewrite Hts, of_user_app. subst tok. split; [|reflexivity].
    unfold Prisma.of_user at 2. simpl. rewrite String.eqb_refl.
    apply newest_app_later. intros x Hx. apply of_user_In in Hx.
    destruct Hx as [Hx Huid]. simpl. exact (Hclock x Hx Huid).
Qed.

(** *** authenticate *)

(** X1. authenticate only reads: whatever it answers, both tables are left
    as they were, and the only calls it makes are the lookup by email and,
    when a user was found, one comparison of the given password with the
    stored hash.  For an unknown email the hash provider is not called. *)
Theorem authenticate_reads_only c w :
  users (snd (authenticate c w)) = users w
  /\ resetPasswordTokens (snd (authenticate c w)) = resetPasswordTokens w
  /\ trace (snd (authenticate c w)) =
     trace w ++
     UserFindUniqueByEmail (AuthenticateDto.email c) ::
     match Prisma.user_by_email (AuthenticateDto.email c) (users w) with
     | None => []
     | Some u => [CompareHash (AuthenticateDto.password c) (User.password u)]
     end.
Proof.
  unfold AuthService.authenticate, AuthService.hashProvider_compareHash.
  unfold_service.
  destruct (Prisma.user_by_email _ _) as [u|]; simpl;
    [destruct (compareHash _ _); simpl|];
    rewrite <- ?app_assoc; auto.
Qed.

(** *** resetPassword *)

(** X2. A successful resetPassword touches one user and one token: every
    user stored under another id is found unchanged, the lookup by email
    gives the same public profile for every email, and every token stored
    under another id is found unchanged. *)
Theorem resetPassword_frame now d w w' :
  resetPassword now d w = (Ok tt, w') ->
  exists t,
    Prisma.token_by_id (ResetPasswordDto.token d) (resetPasswordTokens w)
    = Some t
    /\ (forall i, i <> ResetPasswordToken.userId t ->
                  Prisma.user_by_id i (users w')
                  = Prisma.user_by_id i (users w))
    /\ (forall e, option_map plainToClass
                    (Prisma.user_by_email e (users w'))
                  = option_map plainToClass
                      (Prisma.user_by_email e (users w)))
    /\ (forall j, j <> ResetPasswordDto.token d ->
                  Prisma.token_by_id j (resetPasswordTokens w')
                  = Prisma.token_by_id j (resetPasswordTokens w)).
Proof.
  intros H. apply resetPassword_ok_inv in H.
  destruct H as (t & u & _ & Ht & Hu & _ & _ & Hus & Hts).
  pose proof (user_by_id_id _ _ _ Hu) as Hui.
  pose proof (token_by_id_id _ _ _ Ht) as Hti.
  exists t. split; [exact Ht|]. rewrite Hus, Hts, Hui, Hti.
  split; [|split].
  - intros i Hi. rewrite user_by_id_set_password.
    destruct (Prisma.user_by_id i (users w)) as [u0|] eqn:Hu0;
      [|reflexivity].
    simpl. apply user_by_id_id in Hu0. rewrite Hu0.
    apply String.eqb_neq in Hi. rewrite Hi. reflexivity.
  - intros e. rewrite user_by_email_set_password.
    destruct (Prisma.user_by_email e (users w)) as [u0|]; [|reflexivity].
    simpl. destruct (String.eqb _ _); reflexivity.
  - intros j Hj. rewrite token_by_id_set_active.
    destruct (Prisma.token_by_id j (resetPasswordTokens w)) as [t0|] eqn:Ht0;
      [|reflexivity].
    simpl. apply token_by_id_id in Ht0. rewrite Ht0.
    apply String.eqb_neq in Hj. rewrite Hj. reflexivity.
Qed.

(** X3. After a successful resetPassword, signing in with the email of the
    token's user is decided by the new hash alone: it succeeds, for that
    user, exactly when the hash provider accepts the given password against
    the hash of the new password, and fails with the usual message
    otherwise. *)
Theorem resetPassword_then_authenticate now d w w' t u c :
  resetPassword now d w = (Ok tt, w') ->
  Prisma.token_by_id (ResetPasswordDto.token d) (resetPasswordTokens w)
  = Some t ->
  Prisma.user_by_email (AuthenticateDto.email c) (users w) = Some u ->
  User.id u = ResetPasswordToken.userId t ->
  fst (authenticate c w') =
  if compareHash (AuthenticateDto.password c)
                 (generateHash (ResetPasswordDto.password d))
  then Ok (IAuthResponse.mk (plainToClass u)
             (sign (JwtConfig.secret authConfig_jwt)
                   (SignOptions.mk (User.id u)
                      (JwtConfig.expiresIn authConfig_jwt))))
  else Throw (BadRequestException msgIncorrectCombination).
Proof.
  intros H Ht Hu Hid. apply resetPassword_ok_inv in H.
  destruct H as (t' & u' & _ & Ht' & Hu' & _ & _ & Hus & _).
  rewrite Ht in Ht'. inversion Ht'; subst t'; clear Ht'.
  pose proof (user_by_id_id _ _ _ Hu') as Hui.
  unfold AuthService.authenticate, AuthService.hashProvider_compareHash.
  unfold_service. rewrite Hus, user_by_email_set_password, Hu. simpl.
  rewrite <- Hid in Hui. rewrite Hui, String.eqb_refl. simpl.
  destruct (compareHash _ _); reflexivity.
Qed.

(** *** generateResetPasswordToken and resetPassword together *)

(** X4. A token handed out by generateResetPasswordToken, minted or
    reused, is accepted by resetPassword at every reading of the clock up
    to and including its expiresIn, provided the user is stored and no two
    stored tokens share an id: the reset succeeds, the user then carries
    the hash of the new password and the token is inactive. *)
Theorem issued_token_is_accepted env uid w tok w1 now d u :
  NoDup (map ResetPasswordToken.id (resetPasswordTokens w)) ->
  generateResetPasswordToken env uid w = (Ok tok, w1) ->
  Prisma.user_by_id uid (users w) = Some u ->
  ResetPasswordDto.token d = ResetPasswordToken.id tok ->
  ResetPasswordDto.password d = ResetPasswordDto.passwordConfirmation d ->
  now <= ResetPasswordToken.expiresIn tok ->
  exists w2,
    resetPassword now d w1 = (Ok tt, w2)
    /\ Prisma.user_by_id uid (users w2)
       = Some (User.with_password
                 (generateHash (ResetPasswordDto.password d)) u)
    /\ Prisma.token_by_id (ResetPasswordToken.id tok)
         (resetPasswordTokens w2)
       = Some (ResetPasswordToken.with_active false tok).
Proof.
  intros Hnd Hgen Hu Htok Hpw Hnow.
  destruct (generate_cases env uid w _ _ Hgen) as [Hus _].
  pose proof (generate_ok_inv _ env uid w tok w1 Hgen) as Hinv.
  simpl in Hinv.
  assert (Hfacts :
    Prisma.token_by_id (ResetPasswordToken.id tok) (resetPasswordTokens w1)
    = Some tok
    /\ ResetPasswordToken.userId tok = uid
    /\ ResetPasswordToken.active tok = true).
  { destruct Hinv as [(Hexp & Hl & Hts)|(Hexp & Hid & (expiresIn & Hdate & Hm) & Hts)].
    - rewrite Hl in Hexp. apply usable_not_expired, usable_iff in Hexp.
      apply newest_some in Hl. destruct Hl as [Hin _].
      apply of_user_In in Hin. destruct Hin as [Hin Huid].
      rewrite Hts.
      split; [|split; [exact Huid|exact (proj1 Hexp)]].
      apply token_by_id_unique; assumption.
    - rewrite Hts. subst tok. simpl. split; [|auto].
      unfold Prisma.token_by_id in Hid |- *.
      rewrite (find_app_missing _ _ _ Hid). simpl.
      rewrite String.eqb_refl. reflexivity. }
  destruct Hfacts as (Hfind & Huid & Hact).
  pose proof (user_by_id_id _ _ _ Hu) as Hui.
  assert (Hfind' : Prisma.token_by_id (ResetPasswordDto.token d)
                     (resetPasswordTokens w1) = Some tok)
    by (rewrite Htok; exact Hfind).
  assert (Hu' : Prisma.user_by_id (ResetPasswordToken.userId tok) (users w1)
                = Some u)
    by (rewrite Huid, Hus; exact Hu).
  eexists. split;
    [apply (resetPassword_ok now d w1 tok u Hpw Hfind' Hu' Hact Hnow)|].
  simpl. split.
  - rewrite user_by_id_set_password, Hui, Hus, Hu. simpl.
    rewrite Hui, String.eqb_refl. reflexivity.
  - rewrite token_by_id_set_active, Hfind. simpl.
    rewrite String.eqb_refl. reflexivity.
Qed.

(** X5. Once resetPassword has consumed the newest token of a user, the
    next generateResetPasswordToken for that user mints a row, whatever the
    clock reads at the expiry test, and its id is not the consumed one;
    the row expires the configured number of minutes after the clock.
    This takes the configured minutes to be a number that added to the
    clock gives a valid date, and the database to hand out an unused
    id. *)
Theorem consumed_token_is_replaced now d w w1 t env minutes :
  resetPassword now d w = (Ok tt, w1) ->
  Prisma.token_by_id (ResetPasswordDto.token d) (resetPasswordTokens w)
  = Some t ->
  Prisma.newest
    (Prisma.of_user (ResetPasswordToken.userId t) (resetPasswordTokens w))
  = Some t ->
  RESET_PASSWORD_TOKEN_EXPIRES_IN = Some minutes ->
  - maxTimeValue <= Ambient.mintedAt env + minutes * 60000 <= maxTimeValue ->
  Prisma.token_by_id (Ambient.rowId env) (resetPasswordTokens w) = None ->
  exists tok w2,
    generateResetPasswordToken env (ResetPasswordToken.userId t) w1
    = (Ok tok, w2)
    /\ ResetPasswordToken.id tok <> ResetPasswordDto.token d
    /\ ResetPasswordToken.active tok = true
    /\ ResetPasswordToken.expiresIn tok
       = Ambient.mintedAt env + minutes * 60000
    /\ resetPasswordTokens w2 = resetPasswordTokens w1 ++ [tok].
Proof.
  intros H Ht Hnew Hcfg [Hlo Hhi] Hfresh. apply resetPassword_ok_inv in H.
  destruct H as (t' & u & _ & Ht' & _ & _ & _ & _ & Hts).
  rewrite Ht in Ht'. inversion Ht'; subst t'; clear Ht'.
  assert (Hexp : isLastTokenExpired
                   (Prisma.newest
                      (Prisma.of_user (ResetPasswordToken.userId t)
                         (resetPasswordTokens w1)))
                   (Ambient.checkedAt env) = true).
  { rewrite Hts, of_user_set_active, newest_set_active, Hnew. simpl.
    rewrite String.eqb_refl. reflexivity. }
  assert (Hfresh1 : Prisma.token_by_id (Ambient.rowId env)
                      (resetPasswordTokens w1) = None)
    by (rewrite Hts, token_by_id_set_active, Hfresh; reflexivity).
  assert (Hdate : addMinutes (Ambient.mintedAt env)
                    RESET_PASSWORD_TOKEN_EXPIRES_IN
                  = Some (Ambient.mintedAt env + minutes * 60000)).
  { rewrite Hcfg. unfold addMinutes, timeClip.
    apply Z.leb_le in Hlo, Hhi. rewrite Hlo, Hhi. reflexivity. }
  exists (minted env (ResetPasswordToken.userId t)
            (Ambient.mintedAt env + minutes * 60000)).
  eexists.
  split; [apply (generate_mint _ env _ w1 _ Hexp Hdate Hfresh1)|].
  simpl. repeat split.
  intros Heq. rewrite Heq, Ht in Hfresh. discriminate.
Qed.

(** X6. A request for one user never shows in what another user has: the
    tokens of every other user, and the user table, are after the call
    what they were before it, whether the call minted, reused or failed. *)
Theorem generate_leaves_other_users env uid w uid' :
  uid' <> uid ->
  Prisma.of_user uid'
    (resetPasswordTokens (snd (generateResetPasswordToken env uid w)))
  = Prisma.of_user uid' (resetPasswordTokens w)
  /\ users (snd (generateResetPasswordToken env uid w)) = users w.
Proof.
  intros Hneq.
  destruct (generateResetPasswordToken env uid w) as [r w'] eqn:Hgen.
  simpl. destruct (generate_cases env uid w r w' Hgen)
    as [Hus [Hts|(expiresIn & _ & _ & _ & _ & Hts)]]; rewrite Hts; split; auto.
  rewrite of_user_app. unfold Prisma.of_user at 2. simpl.
  assert (Hb : String.eqb uid uid' = false)
    by (apply String.eqb_neq; congruence).
  rewrite Hb. apply app_nil_r.
Qed.

(** *** What no sequence of calls undoes *)

Lemma same_profile_chain u1 u2 u3 :
  same_profile u1 u2 -> same_profile u2 u3 -> same_profile u1 u3.
Proof.
  unfold same_profile. intros (A1 & A2 & A3) (B1 & B2 & B3).
  repeat split; congruence.
Qed.

Lemma not_revived_chain t1 t2 t3 :
  not_revived t1 t2 -> not_revived t2 t3 -> not_revived t1 t3.
Proof.
  unfold not_revived.
  intros (A1 & A2 & A3 & A4 & A5) (B1 & B2 & B3 & B4 & B5).
  repeat split; try congruence. auto.
Qed.

Lemma extends_same w w' :
  users w' = users w ->
  resetPasswordTokens w' = resetPasswordTokens w ->
  extends w w'.
Proof.
  intros Hu Ht. unfold extends. rewrite Hu, Ht. split.
  - apply Forall2_same. unfold same_profile. auto.
  - exists (resetPasswordTokens w), []. split; [symmetry; apply app_nil_r|].
    apply Forall2_same. unfold not_revived. auto.
Qed.

Lemma extends_chain w1 w2 w3 : extends w1 w2 -> extends w2 w3 -> extends w1 w3.
Proof.
  intros (Hu1 & k1 & a1 & Ht1 & Hk1) (Hu2 & k2 & a2 & Ht2 & Hk2).
  split.
  - exact (Forall2_chain _ _ _ _ same_profile_chain Hu1 Hu2).
  - rewrite Ht1 in Hk2. apply Forall2_app_inv_l in Hk2.
    destruct Hk2 as (k2a & k2b & Hka & _ & Hk2eq).
    exists k2a, (k2b ++ a2). split.
    + rewrite Ht2, Hk2eq, app_assoc. reflexivity.
    + exact (Forall2_chain _ _ _ _ not_revived_chain Hk1 Hka).
Qed.

Lemma call_extends w w' :
  AuthService.call sign authConfig_jwt RESET_PASSWORD_TOKEN_EXPIRES_IN w w' ->
  extends w w'.
Proof.
  intros [c w0 r w0' H|now d w0 r w0' H|env uid w0 r w0' H].
  - destruct (authenticate_tables _ _ c w0 r w0' H) as [Hu Ht].
    apply extends_same; assumption.
  - destruct r as [[]|e].
    + apply resetPassword_ok_inv in H.
      destruct H as (t & u & _ & _ & _ & _ & _ & Hus & Hts).
      unfold extends. rewrite Hus, Hts. split.
      * apply Forall2_map_r. intros x. unfold same_profile.
        destruct (String.eqb _ _); auto.
      * eexists. exists []. split; [symmetry; apply app_nil_r|].
        apply Forall2_map_r. intros x. unfold not_revived.
        destruct (String.eqb _ _); simpl; auto.
    + destruct (resetPassword_throw now d w0 e w0' H) as (_ & Hu & Ht).
      apply extends_same; assumption.
  - destruct (generate_cases env uid w0 r w0' H)
      as [Hus [Hts|(expiresIn & _ & _ & _ & _ & Hts)]].
    + apply extends_same; assumption.
    + unfold extends. rewrite Hus, Hts. split.
      * apply Forall2_same. unfold same_profile. auto.
      * eexists. eexists. split; [reflexivity|].
        apply Forall2_same. unfold not_revived. auto.
Qed.

Lemma extends_of_calls w w' : calls w w' -> extends w w'.
Proof.
  intros H. induction H as [w w' H|w|w w1 w' _ IH1 _ IH2].
  - exact (call_extends w w' H).
  - apply extends_same; reflexivity.
  - exact (extends_chain w w1 w' IH1 IH2).
Qed.

(** A token found under an id is still found under it later, the same
    but possibly deactivated. *)
Lemma extends_token_by_id w w' i t :
  extends w w' ->
  Prisma.token_by_id i (resetPasswordTokens w) = Some t ->
  exists t',
    Prisma.token_by_id i (resetPasswordTokens w') = Some t'
    /\ not_revived t t'.
Proof.
  intros (_ & kept & added & Hts & Hk) Hfind. rewrite Hts.
  assert (Hkept : exists t', Prisma.token_by_id i kept = Some t'
                             /\ not_revived t t').
  { clear Hts. revert Hfind. unfold Prisma.token_by_id.
    induction Hk as [|x y l l' Hxy _ IH]; simpl; [discriminate|].
    destruct Hxy as (Hid & Hrest). rewrite Hid.
    destruct (String.eqb (ResetPasswordToken.id x) i).
    - intros E. inversion E; subst. exists y. split; [reflexivity|].
      split; assumption.
    - exact IH. }
  destruct Hkept as (t' & Hf & Hr). exists t'. split; [|exact Hr].
  apply find_app_found. exact Hf.
Qed.

(** A user found under an id is still found under it later, with the same
    id, email and name. *)
Lemma extends_user_by_id w w' i u :
  extends w w' ->
  Prisma.user_by_id i (users w) = Some u ->
  exists u', Prisma.user_by_id i (users w') = Some u' /\ same_profile u u'.
Proof.
  intros (Hus & _). unfold Prisma.user_by_id.
  induction Hus as [|x y l l' Hxy _ IH]; simpl; [discriminate|].
  destruct Hxy as (Hid & Hrest). rewrite Hid.
  destruct (String.eqb (User.id x) i).
  - intros E. inversion E; subst. exists y. split; [reflexivity|].
    split; assumption.
  - exact IH.
Qed.

(** X7. No sequence of authenticate, resetPassword and
    generateResetPasswordToken calls removes or adds a user, or changes a
    user's id, email or name; none removes a token, changes its id, owner,
    expiry or creation stamp, or makes an inactive token active again.
    The token rows there were are still there, in place, followed by the
    rows minted since; so a user or a token that a lookup by id found is
    found by it ever after. *)
Theorem calls_extend w w' :
  calls w w' ->
  extends w w'
  /\ (forall i u,
        Prisma.user_by_id i (users w) = Some u ->
        exists u',
          Prisma.user_by_id i (users w') = Some u' /\ same_profile u u')
  /\ (forall i t,
        Prisma.token_by_id i (resetPasswordTokens w) = Some t ->
        exists t',
          Prisma.token_by_id i (resetPasswordTokens w') = Some t'
          /\ not_revived t t').
Proof.
  intros H. pose proof (extends_of_calls w w' H) as He.
  split; [exact He|]. split.
  - intros i u. exact (extends_user_by_id w w' i u He).
  - intros i t. exact (extends_token_by_id w w' i t He).
Qed.

(** *** At most one usable token per user *)

Lemma sole_usable_later now now' w :
  now <= now' -> sole_usable now w -> sole_usable now' w.
Proof.
  intros Hle Hs t Hin Hu. apply Hs; [exact Hin|].
  exact (usable_earlier now now' t Hle Hu).
Qed.

(** Under [sole_usable], two usable tokens of one user are one token. *)
Lemma sole_usable_unique now w t1 t2 :
  sole_usable now w ->
  In t1 (resetPasswordTokens w) -> In t2 (resetPasswordTokens w) ->
  ResetPasswordToken.userId t1 = ResetPasswordToken.userId t2 ->
  usable now t1 = true -> usable now t2 = true ->
  t1 = t2.
Proof.
  intros Hs H1 H2 Huid Hu1 Hu2.
  pose proof (Hs t1 H1 Hu1) as E1. pose proof (Hs t2 H2 Hu2) as E2.
  rewrite Huid in E1. rewrite E1 in E2. inversion E2. reflexivity.
Qed.

(** X8. generateResetPasswordToken keeps the rule that a usable token is
    its user's newest one.  If the rule holds when the call reads the
    clock, and a new row is stamped later than the rows its user has, the
    rule holds after the call at every later reading; so no user ever has
    two usable tokens. *)
Theorem generate_keeps_sole_usable env uid w now' :
  sole_usable (Ambient.checkedAt env) w ->
  (forall r, In r (resetPasswordTokens w) ->
             ResetPasswordToken.userId r = uid ->
             ResetPasswordToken.createdAt r < Ambient.rowCreatedAt env) ->
  Ambient.checkedAt env <= now' ->
  sole_usable now' (snd (generateResetPasswordToken env uid w))
  /\ (forall t1 t2,
        In t1 (resetPasswordTokens
                 (snd (generateResetPasswordToken env uid w))) ->
        In t2 (resetPasswordTokens
                 (snd (generateResetPasswordToken env uid w))) ->
        ResetPasswordToken.userId t1 = ResetPasswordToken.userId t2 ->
        usable now' t1 = true -> usable now' t2 = true -> t1 = t2).
Proof.
  intros Hs Hclock Hle.
  assert (Hgoal : sole_usable now'
                    (snd (generateResetPasswordToken env uid w))).
  { destruct (generateResetPasswordToken env uid w) as [r w'] eqn:Hgen.
    simpl. destruct (generate_cases env uid w r w' Hgen)
      as [_ [Hts|(expiresIn & Hexp & _ & _ & _ & Hts)]].
    - intros t Hin Hu. rewrite Hts in *.
      exact (sole_usable_later _ _ w Hle Hs t Hin Hu).
    - intros t Hin Hu. rewrite Hts in *.
      apply in_app_or in Hin. destruct Hin as [Hin|[<-|[]]].
      + pose proof (Hs t Hin (usable_earlier _ _ t Hle Hu)) as Hnew.
        destruct (String.eqb (ResetPasswordToken.userId t) uid) eqn:Hb.
        * apply String.eqb_eq in Hb. rewrite Hb in Hnew.
          rewrite Hnew in Hexp.
          apply (usable_earlier _ _ t Hle), usable_not_expired in Hu.
          congruence.
        * rewrite of_user_app. unfold Prisma.of_user at 2. simpl.
          rewrite String.eqb_sym, Hb, app_nil_r. exact Hnew.
      + simpl. rewrite of_user_app. unfold Prisma.of_user at 2. simpl.
        rewrite String.eqb_refl. apply newest_app_later.
        intros x Hx. apply of_user_In in Hx. destruct Hx as [Hx Huid].
        simpl. exact (Hclock x Hx Huid). }
  split; [exact Hgoal|].
  intros t1 t2. apply (sole_usable_unique now' _ t1 t2 Hgoal).
Qed.

(** X9. resetPassword keeps the same rule: if it holds at some reading
    before the call it holds at every later reading after it, whether the
    call succeeded or failed. *)
Theorem resetPassword_keeps_sole_usable now d w now0 now' :
  sole_usable now0 w ->
  now0 <= now' ->
  sole_usable now' (snd (resetPassword now d w)).
Proof.
  intros Hs Hle. apply (sole_usable_later now0 now' _ Hle).
  destruct (resetPassword now d w) as [r w'] eqn:H. simpl.
  destruct r as [[]|e].
  - apply resetPassword_ok_inv in H.
    destruct H as (t0 & u & _ & _ & _ & _ & _ & _ & Hts).
    intros t Hin Hu. rewrite Hts in *.
    unfold Prisma.set_active in Hin. apply in_map_iff in Hin.
    destruct Hin as (x & Hx & Hin).
    destruct (String.eqb (ResetPasswordToken.id x) (ResetPasswordToken.id t0))
      eqn:Hb.
    + subst t. apply usable_iff in Hu. simpl in Hu. destruct Hu. discriminate.
    + subst x. rewrite of_user_set_active, newest_set_active.
      rewrite (Hs t Hin Hu). simpl. rewrite Hb. reflexivity.
  - destruct (resetPassword_throw now d w e w' H) as (_ & _ & Ht).
    intros t Hin Hu. rewrite Ht in *. exact (Hs t Hin Hu).
Qed.

(** X13. Expiry is final.  No call extends a stored token's expiresIn, so
    once the clock is past it, resetPassword with that token fails at that
    reading whatever calls of the service were made in between and
    whatever else the request holds. *)
Theorem expired_token_stays_expired w w' t now d :
  Prisma.token_by_id (ResetPasswordDto.token d) (resetPasswordTokens w)
  = Some t ->
  calls w w' ->
  ResetPasswordToken.expiresIn t < now ->
  exists e w'',
    resetPassword now d w' = (Throw e, w'')
    /\ users w'' = users w'
    /\ resetPasswordTokens w'' = resetPasswordTokens w'.
Proof.
  intros Hfind Hcalls Hpast.
  destruct (extends_token_by_id w w' _ t (extends_of_calls w w' Hcalls) Hfind)
    as (t' & Hfind' & _ & _ & Hexp & _).
  destruct (resetPassword now d w') as [r w''] eqn:Hrun.
  destruct r as [[]|e].
  - exfalso. apply resetPassword_ok_inv in Hrun.
    destruct Hrun as (t0 & u & _ & Ht0 & _ & _ & Hnow & _).
    rewrite Hfind' in Ht0. inversion Ht0; subst t0. lia.
  - destruct (resetPassword_throw now d w' e w'' Hrun) as (_ & Hu & Ht).
    exists e, w''. auto.
Qed.

(** X14. A resetPassword that fails has done no work beyond lookups: the
    calls it made are none (mismatch), the token lookup alone, or the token
    lookup followed by the user lookup; the hash provider was not called
    and no update was issued. *)
Theorem resetPassword_failure_only_looks_up now d w e w' :
  resetPassword now d w = (Throw e, w') ->
  trace w' = trace w
  \/ trace w' = trace w ++ [TokenFindUnique (ResetPasswordDto.token d)]
  \/ exists t,
       Prisma.token_by_id (ResetPasswordDto.token d) (resetPasswordTokens w)
       = Some t
       /\ trace w' =
          trace w ++
          [ TokenFindUnique (ResetPasswordDto.token d);
            UserFindUniqueById (ResetPasswordToken.userId t) ].
Proof.
  unfold AuthService.resetPassword, AuthService.hashProvider_generateHash.
  destruct (negb _); [intros H; inversion H; subst; auto|].
  unfold_service.
  destruct (Prisma.token_by_id _ _) as [t|] eqn:Ht; simpl;
    [|intros H; inversion H; subst; simpl; auto].
  assert (Hlog : (trace w ++ [TokenFindUnique (ResetPasswordDto.token d)])
                 ++ [UserFindUniqueById (ResetPasswordToken.userId t)]
                 = trace w ++
                   [ TokenFindUnique (ResetPasswordDto.token d);
                     UserFindUniqueById (ResetPasswordToken.userId t) ])
    by (rewrite <- app_assoc; reflexivity).
  destruct (Prisma.user_by_id _ _) as [u|] eqn:Hu; simpl.
  - destruct (_ || _); simpl.
    + intros H; inversion H; subst; simpl. right. right. exists t.
      split; [reflexivity|exact Hlog].
    + rewrite (user_by_id_id _ _ _ Hu), Hu. simpl.
      rewrite (token_by_id_id _ _ _ Ht), Ht. simpl.
      discriminate.
  - intros H; inversion H; subst; simpl. right. right. exists t.
    split; [reflexivity|exact Hlog].
Qed.

(** *** register and sendForgotPasswordEmail *)

Variable userService_create : CreateUserDto.t -> M User.t.
Variable userService_findByEmail : string -> M User.t.
Variable parseForgotPasswordEmailTemplate :
  User.t -> ResetPasswordToken.t -> string.
Variable mailProvider_sendEmail : IEmailData.t -> M unit.

Abbreviation register :=
  (AuthService.register sign authConfig_jwt userService_create).
Abbreviation sendForgotPasswordEmail :=
  (AuthService.sendForgotPasswordEmail RESET_PASSWORD_TOKEN_EXPIRES_IN
     userService_findByEmail parseForgotPasswordEmailTemplate
     mailProvider_sendEmail).

(** A token returned by [generateResetPasswordToken] is active, belongs to
    the user asked for, and is stored when the call ends. *)
Lemma generate_returns_stored env uid w tok w' :
  generateResetPasswordToken env uid w = (Ok tok, w') ->
  ResetPasswordToken.active tok = true
  /\ ResetPasswordToken.userId tok = uid
  /\ In tok (resetPasswordTokens w').
Proof.
  intros Hgen. apply generate_ok_inv in Hgen. simpl in Hgen.
  destruct Hgen as [(Hexp & Hl & Hts)|(Hexp & Hid & (expiresIn & Hdate & Hm) & Hts)].
  - rewrite Hl in Hexp. apply usable_not_expired, usable_iff in Hexp.
    apply newest_some in Hl. destruct Hl as [Hin _].
    apply of_user_In in Hin. destruct Hin as [Hin Huid].
    rewrite Hts. repeat split; [exact (proj1 Hexp)|exact Huid|exact Hin].
  - rewrite Hts. subst tok. simpl. repeat split.
    apply in_or_app. right. left. reflexivity.
Qed.

(** X10. sendForgotPasswordEmail reaches the mail provider only after the
    user was found and a token obtained, and then with one message: sent
    to the address of the request, from the fixed sender and under the
    fixed subject, with the body the template gives for the found user and
    that token; the token is active, belongs to the found user and is
    stored.  When the lookup or the issuing throws, the exception is
    passed on, the provider is not called, and a failed lookup stores no
    token. *)
Theorem sendForgotPasswordEmail_run env dto w :
  match userService_findByEmail (ForgotPasswordDto.email dto) w with
  | (Throw e, w1) => sendForgotPasswordEmail env dto w = (Throw e, w1)
  | (Ok u, w1) =>
      match generateResetPasswordToken env (User.id u) w1 with
      | (Throw e, w2) => sendForgotPasswordEmail env dto w = (Throw e, w2)
      | (Ok tok, w2) =>
          sendForgotPasswordEmail env dto w =
          mailProvider_sendEmail
            (IEmailData.mk forgotPasswordSubject forgotPasswordFrom
               (EmailTo.mk (ForgotPasswordDto.email dto))
               (parseForgotPasswordEmailTemplate u tok)) w2
          /\ ResetPasswordToken.active tok = true
          /\ ResetPasswordToken.userId tok = User.id u
          /\ In tok (resetPasswordTokens w2)
      end
  end.
Proof.
  unfold AuthService.sendForgotPasswordEmail, bind.
  destruct (userService_findByEmail _ w) as [[u|e] w1]; [|reflexivity].
  destruct (generateResetPasswordToken env (User.id u) w1)
    as [[tok|e] w2] eqn:Hgen; [|reflexivity].
  split; [reflexivity|].
  exact (generate_returns_stored env (User.id u) w1 tok w2 Hgen).
Qed.

(** X11. Two forgot-password requests for the same address, one after the
    other: if the mail provider and the user lookup leave the token table
    alone, the second lookup finds the same user id, and the clock of the
    second request is not past the first token's expiry, then the second
    request mails the very token of the first and stores no row (a new row
    being stamped later than the rows the user has). *)
Theorem sendForgotPasswordEmail_twice
  env1 env2 dto w u w1 tok w2 r w3 u' w4 :
  userService_findByEmail (ForgotPasswordDto.email dto) w = (Ok u, w1) ->
  (forall x, In x (resetPasswordTokens w1) ->
             ResetPasswordToken.userId x = User.id u ->
             ResetPasswordToken.createdAt x < Ambient.rowCreatedAt env1) ->
  generateResetPasswordToken env1 (User.id u) w1 = (Ok tok, w2) ->
  mailProvider_sendEmail
    (IEmailData.mk forgotPasswordSubject forgotPasswordFrom
       (EmailTo.mk (ForgotPasswordDto.email dto))
       (parseForgotPasswordEmailTemplate u tok)) w2 = (r, w3) ->
  resetPasswordTokens w3 = resetPasswordTokens w2 ->
  userService_findByEmail (ForgotPasswordDto.email dto) w3 = (Ok u', w4) ->
  User.id u' = User.id u ->
  resetPasswordTokens w4 = resetPasswordTokens w3 ->
  Ambient.checkedAt env2 <= ResetPasswordToken.expiresIn tok ->
  sendForgotPasswordEmail env1 dto w = (r, w3)
  /\ exists w5,
       sendForgotPasswordEmail env2 dto w3 =
       mailProvider_sendEmail
         (IEmailData.mk forgotPasswordSubject forgotPasswordFrom
            (EmailTo.mk (ForgotPasswordDto.email dto))
            (parseForgotPasswordEmailTemplate u' tok)) w5
       /\ resetPasswordTokens w5 = resetPasswordTokens w2.
Proof.
  intros Hfind1 Hclock Hgen Hmail Hkeep3 Hfind2 Hid Hkeep4 Hlive.
  split.
  - unfold AuthService.sendForgotPasswordEmail, bind.
    rewrite Hfind1, Hgen. exact Hmail.
  - destruct (generate_returns_newest env1 (User.id u) w1 tok w2 Hclock Hgen)
      as [Hnew Hact].
    assert (Hnew4 : Prisma.newest
                      (Prisma.of_user (User.id u') (resetPasswordTokens w4))
                    = Some tok)
      by (rewrite Hid, Hkeep4, Hkeep3; exact Hnew).
    assert (Hexp : isLastTokenExpired (Some tok) (Ambient.checkedAt env2)
                   = false)
      by (apply usable_not_expired, usable_iff; auto).
    eexists. split.
    + unfold AuthService.sendForgotPasswordEmail, bind.
      rewrite Hfind2.
      rewrite (generate_reuse _ env2 (User.id u') w4 tok Hnew4 Hexp).
      reflexivity.
    + simpl. rewrite Hkeep4, Hkeep3. reflexivity.
Qed.

(** X12. Signing up and then signing in with the same email and password:
    when the user service stored the new user so that the lookup by email
    finds it and its stored hash accepts the password, register and
    authenticate answer with the same sanitized user, and both sign for
    that user's id with the configured secret and expiry.  register leaves
    the tables as the user service left them. *)
Theorem register_then_authenticate data w u w1 :
  userService_create data w = (Ok u, w1) ->
  Prisma.user_by_email (CreateUserDto.email data) (users w1) = Some u ->
  compareHash (CreateUserDto.password data) (User.password u) = true ->
  exists r r',
    register data w = (Ok r, w1)
    /\ fst (authenticate
              (AuthenticateDto.mk (CreateUserDto.email data)
                                  (CreateUserDto.password data)) w1) = Ok r'
    /\ IAuthResponse.user r' = IAuthResponse.user r
    /\ IAuthResponse.user r = plainToClass u
    /\ IAuthResponse.token r =
       sign (JwtConfig.secret authConfig_jwt)
            (SignOptions.mk (User.id u) (JwtConfig.expiresIn authConfig_jwt))
    /\ IAuthResponse.token r' =
       sign (JwtConfig.secret authConfig_jwt)
            (SignOptions.mk (User.id u) (JwtConfig.expiresIn authConfig_jwt)).
Proof.
  intros Hcreate Hfind Hcmp.
  eexists. eexists. split; [|split].
  - unfold AuthService.register, bind, ret. rewrite Hcreate. reflexivity.
  - unfold AuthService.authenticate, AuthService.hashProvider_compareHash.
    unfold_service. rewrite Hfind. simpl. rewrite Hcmp. simpl. reflexivity.
  - simpl. auto.
Qed.

End AuthServiceFlows.

(** ** The flows at concrete requests *)

(** T1 is used for alice; bob's row and any other token are looked up. *)
Lemma resetPassword_frame_witness :
  exists t,
    Prisma.token_by_id "T1" (resetPasswordTokens Sample.issued) = Some t
    /\ (forall i, i <> ResetPasswordToken.userId t ->
                  Prisma.user_by_id i
                    (users (snd (Sample.resetPassword 10
                                   (ResetPasswordDto.mk "T1" "newpass1"
                                      "newpass1") Sample.issued)))
                  = Prisma.user_by_id i (users Sample.issued))
    /\ (forall e, option_map plainToClass
                    (Prisma.user_by_email e
                       (users (snd (Sample.resetPassword 10
                                      (ResetPasswordDto.mk "T1" "newpass1"
                                         "newpass1") Sample.issued))))
                  = option_map plainToClass
                      (Prisma.user_by_email e (users Sample.issued)))
    /\ (forall j, j <> "T1" ->
                  Prisma.token_by_id j
                    (resetPasswordTokens
                       (snd (Sample.resetPassword 10
                               (ResetPasswordDto.mk "T1" "newpass1"
                                  "newpass1") Sample.issued)))
                  = Prisma.token_by_id j (resetPasswordTokens Sample.issued)).
Proof.
  apply (@resetPassword_frame Sample.hashProvider 10
           (ResetPasswordDto.mk "T1" "newpass1" "newpass1") Sample.issued).
  reflexivity.
Defined.

(** The scenario of spec 8 carried on: after the reset, "newpass1" signs
    in. *)
Lemma resetPassword_then_authenticate_witness :
  fst (Sample.authenticate
         (AuthenticateDto.mk "alice@ewallet.com" "newpass1")
         (snd (Sample.resetPassword 10
                 (ResetPasswordDto.mk "T1" "newpass1" "newpass1")
                 Sample.issued)))
  = Ok (IAuthResponse.mk (UserModel.mk "u1" "alice@ewallet.com" "Alice")
          "u1.1d.secret").
Proof.
  exact (@resetPassword_then_authenticate Sample.hashProvider Sample.sign
           Sample.jwt 10 (ResetPasswordDto.mk "T1" "newpass1" "newpass1")
           Sample.issued
           (snd (Sample.resetPassword 10
                   (ResetPasswordDto.mk "T1" "newpass1" "newpass1")
                   Sample.issued))
           Sample.T1 Sample.alice
           (AuthenticateDto.mk "alice@ewallet.com" "newpass1")
           eq_refl eq_refl eq_refl eq_refl).
Defined.

(** A token minted at 6 with thirty minutes to live, used at its last
    instant. *)
Lemma issued_token_is_accepted_witness :
  exists w2,
    Sample.resetPassword 1800006
      (ResetPasswordDto.mk "T1" "newpass1" "newpass1")
      (snd (Sample.generateResetPasswordToken (Ambient.mk 5 6 "T1" 7) "u1"
              Sample.registered)) = (Ok tt, w2)
    /\ Prisma.user_by_id "u1" (users w2)
       = Some (User.with_password "hashed:newpass1" Sample.alice)
    /\ Prisma.token_by_id "T1" (resetPasswordTokens w2)
       = Some (ResetPasswordToken.with_active false
                 (ResetPasswordToken.mk "T1" "u1" true 1800006 7)).
Proof.
  apply (@issued_token_is_accepted Sample.hashProvider Sample.ttl
           (Ambient.mk 5 6 "T1" 7) "u1" Sample.registered
           (ResetPasswordToken.mk "T1" "u1" true 1800006 7)
           (snd (Sample.generateResetPasswordToken (Ambient.mk 5 6 "T1" 7)
                   "u1" Sample.registered))
           1800006 (ResetPasswordDto.mk "T1" "newpass1" "newpass1")
           Sample.alice); try reflexivity.
  constructor.
Defined.

(** T1 is consumed, then alice asks again. *)
Lemma consumed_token_is_replaced_witness :
  exists tok w2,
    Sample.generateResetPasswordToken (Ambient.mk 20 21 "T2" 22) "u1"
      (snd (Sample.resetPassword 10
              (ResetPasswordDto.mk "T1" "newpass1" "newpass1")
              Sample.issued)) = (Ok tok, w2)
    /\ ResetPasswordToken.id tok <> "T1"
    /\ ResetPasswordToken.active tok = true
    /\ ResetPasswordToken.expiresIn tok = 21 + 30 * 60000
    /\ resetPasswordTokens w2 =
       resetPasswordTokens
         (snd (Sample.resetPassword 10
                 (ResetPasswordDto.mk "T1" "newpass1" "newpass1")
                 Sample.issued)) ++ [tok].
Proof.
  apply (@consumed_token_is_replaced Sample.hashProvider Sample.ttl 10
           (ResetPasswordDto.mk "T1" "newpass1" "newpass1") Sample.issued
           (snd (Sample.resetPassword 10
                   (ResetPasswordDto.mk "T1" "newpass1" "newpass1")
                   Sample.issued))
           Sample.T1 (Ambient.mk 20 21 "T2" 22) 30); try reflexivity.
  unfold maxTimeValue. simpl. lia.
Defined.

(** A request for a second user, seen from alice. *)
Lemma generate_leaves_other_users_witness :
  Prisma.of_user "u1"
    (resetPasswordTokens
       (snd (Sample.generateResetPasswordToken (Ambient.mk 20 21 "T2" 22)
               "u2" Sample.issued)))
  = Prisma.of_user "u1" (resetPasswordTokens Sample.issued)
  /\ users (snd (Sample.generateResetPasswordToken
                   (Ambient.mk 20 21 "T2" 22) "u2" Sample.issued))
     = users Sample.issued.
Proof.
  apply (generate_leaves_other_users Sample.ttl (Ambient.mk 20 21 "T2" 22)
           "u2" Sample.issued "u1").
  discriminate.
Defined.

(** One reset, as a sequence of calls of length one. *)
Lemma calls_extend_witness :
  extends Sample.issued
    (snd (Sample.resetPassword 10
            (ResetPasswordDto.mk "T1" "newpass1" "newpass1") Sample.issued)).
Proof.
  apply (@calls_extend Sample.hashProvider Sample.sign Sample.jwt Sample.ttl
           Sample.issued
           (snd (Sample.resetPassword 10
                   (ResetPasswordDto.mk "T1" "newpass1" "newpass1")
                   Sample.issued))).
  apply rt_step.
  apply (@AuthService.call_resetPassword Sample.hashProvider Sample.sign
           Sample.jwt Sample.ttl 10
           (ResetPasswordDto.mk "T1" "newpass1" "newpass1") Sample.issued
           (Ok tt)).
  reflexivity.
Defined.

(** T1 has expired by one millisecond when alice asks again. *)
Lemma generate_keeps_sole_usable_witness :
  sole_usable 1800002
    (snd (Sample.generateResetPasswordToken
            (Ambient.mk 1800001 1800001 "T2" 1800001) "u1" Sample.issued))
  /\ (forall t1 t2,
        In t1 (resetPasswordTokens
                 (snd (Sample.generateResetPasswordToken
                         (Ambient.mk 1800001 1800001 "T2" 1800001) "u1"
                         Sample.issued))) ->
        In t2 (resetPasswordTokens
                 (snd (Sample.generateResetPasswordToken
                         (Ambient.mk 1800001 1800001 "T2" 1800001) "u1"
                         Sample.issued))) ->
        ResetPasswordToken.userId t1 = ResetPasswordToken.userId t2 ->
        usable 1800002 t1 = true -> usable 1800002 t2 = true -> t1 = t2).
Proof.
  apply (generate_keeps_sole_usable Sample.ttl
           (Ambient.mk 1800001 1800001 "T2" 1800001) "u1" Sample.issued
           1800002).
  - intros t [<-|[]] _. reflexivity.
  - intros r [<-|[]] _. simpl. lia.
  - simpl. lia.
Defined.

Lemma resetPassword_keeps_sole_usable_witness :
  sole_usable 20
    (snd (Sample.resetPassword 10
            (ResetPasswordDto.mk "T1" "newpass1" "newpass1") Sample.issued)).
Proof.
  apply (@resetPassword_keeps_sole_usable Sample.hashProvider 10
           (ResetPasswordDto.mk "T1" "newpass1" "newpass1") Sample.issued
           0 20).
  - intros t [<-|[]] _. reflexivity.
  - lia.
Defined.

(** Two requests five minutes apart, as in the scenario of spec 8. *)
Lemma sendForgotPasswordEmail_twice_witness :
  Scenario.sendForgotPasswordEmail (Ambient.mk 5 6 "T1" 7)
    (ForgotPasswordDto.mk "alice@ewallet.com") Sample.registered
  = (Ok tt,
     snd (Sample.generateResetPasswordToken (Ambient.mk 5 6 "T1" 7) "u1"
            Sample.registered))
  /\ exists w5,
       Scenario.sendForgotPasswordEmail
         (Ambient.mk 300005 300006 "T2" 300007)
         (ForgotPasswordDto.mk "alice@ewallet.com")
         (snd (Sample.generateResetPasswordToken (Ambient.mk 5 6 "T1" 7)
                 "u1" Sample.registered))
       = Scenario.sendEmail
           (IEmailData.mk forgotPasswordSubject forgotPasswordFrom
              (EmailTo.mk "alice@ewallet.com")
              (Scenario.template Sample.alice
                 (ResetPasswordToken.mk "T1" "u1" true 1800006 7))) w5
       /\ resetPasswordTokens w5 =
          resetPasswordTokens
            (snd (Sample.generateResetPasswordToken (Ambient.mk 5 6 "T1" 7)
                    "u1" Sample.registered)).
Proof.
  apply (sendForgotPasswordEmail_twice Sample.ttl Scenario.findByEmail
           Scenario.template Scenario.sendEmail
           (Ambient.mk 5 6 "T1" 7) (Ambient.mk 300005 300006 "T2" 300007)
           (ForgotPasswordDto.mk "alice@ewallet.com") Sample.registered
           Sample.alice Sample.registered
           (ResetPasswordToken.mk "T1" "u1" true 1800006 7)
           (snd (Sample.generateResetPasswordToken (Ambient.mk 5 6 "T1" 7)
                   "u1" Sample.registered))
           (Ok tt)
           (snd (Sample.generateResetPasswordToken (Ambient.mk 5 6 "T1" 7)
                   "u1" Sample.registered))
           Sample.alice
           (snd (Sample.generateResetPasswordToken (Ambient.mk 5 6 "T1" 7)
                   "u1" Sample.registered))); try reflexivity.
  - intros x [].
  - simpl. lia.
Defined.

(** Bob signs up and signs in. *)
Lemma register_then_authenticate_witness :
  exists r r',
    AuthService.register Sample.sign Sample.jwt Scenario.create
      (CreateUserDto.mk "bob@ewallet.com" "Bob" "secret1" "secret1")
      Sample.registered
    = (Ok r,
       snd (Scenario.create
              (CreateUserDto.mk "bob@ewallet.com" "Bob" "secret1" "secret1")
              Sample.registered))
    /\ fst (Sample.authenticate
              (AuthenticateDto.mk "bob@ewallet.com" "secret1")
              (snd (Scenario.create
                      (CreateUserDto.mk "bob@ewallet.com" "Bob" "secret1"
                         "secret1") Sample.registered))) = Ok r'
    /\ IAuthResponse.user r' = IAuthResponse.user r
    /\ IAuthResponse.user r
       = plainToClass (User.mk "u2" "bob@ewallet.com" "Bob" "hashed:secret1")
    /\ IAuthResponse.token r = "u2.1d.secret"
    /\ IAuthResponse.token r' = "u2.1d.secret".
Proof.
  apply (@register_then_authenticate Sample.hashProvider Sample.sign
           Sample.jwt Scenario.create
           (CreateUserDto.mk "bob@ewallet.com" "Bob" "secret1" "secret1")
           Sample.registered
           (User.mk "u2" "bob@ewallet.com" "Bob" "hashed:secret1")
           (snd (Scenario.create
                   (CreateUserDto.mk "bob@ewallet.com" "Bob" "secret1"
                      "secret1") Sample.registered))); reflexivity.
Defined.

(** T1, expired by one millisecond, after alice has asked for a token
    again. *)
Lemma expired_token_stays_expired_witness :
  exists e w'',
    Sample.resetPassword 1800002
      (ResetPasswordDto.mk "T1" "newpass1" "newpass1")
      (snd (Sample.generateResetPasswordToken
              (Ambient.mk 1800001 1800001 "T2" 1800001) "u1" Sample.issued))
    = (Throw e, w'')
    /\ users w'' =
       users (snd (Sample.generateResetPasswordToken
                     (Ambient.mk 1800001 1800001 "T2" 1800001) "u1"
                     Sample.issued))
    /\ resetPasswordTokens w'' =
       resetPasswordTokens
         (snd (Sample.generateResetPasswordToken
                 (Ambient.mk 1800001 1800001 "T2" 1800001) "u1"
                 Sample.issued)).
Proof.
  apply (@expired_token_stays_expired Sample.hashProvider Sample.sign
           Sample.jwt Sample.ttl Sample.issued
           (snd (Sample.generateResetPasswordToken
                   (Ambient.mk 1800001 1800001 "T2" 1800001) "u1"
                   Sample.issued))
           Sample.T1 1800002
           (ResetPasswordDto.mk "T1" "newpass1" "newpass1")).
  - reflexivity.
  - apply rt_step.
    apply (@AuthService.call_generateResetPasswordToken Sample.hashProvider
             Sample.sign Sample.jwt Sample.ttl
             (Ambient.mk 1800001 1800001 "T2" 1800001) "u1" Sample.issued
             (fst (Sample.generateResetPasswordToken
                     (Ambient.mk 1800001 1800001 "T2" 1800001) "u1"
                     Sample.issued))).
    reflexivity.
  - simpl. lia.
Defined.

(** A stored token whose user is not stored. *)
Lemma resetPassword_failure_only_looks_up_witness :
  trace (snd (Sample.resetPassword 10
                (ResetPasswordDto.mk "T1" "newpass1" "newpass1")
                (mkWorld [] [Sample.T1] [])))
  = trace (mkWorld [] [Sample.T1] [])
  \/ trace (snd (Sample.resetPassword 10
                   (ResetPasswordDto.mk "T1" "newpass1" "newpass1")
                   (mkWorld [] [Sample.T1] [])))
     = trace (mkWorld [] [Sample.T1] []) ++ [TokenFindUnique "T1"]
  \/ exists t,
       Prisma.token_by_id "T1"
         (resetPasswordTokens (mkWorld [] [Sample.T1] [])) = Some t
       /\ trace (snd (Sample.resetPassword 10
                        (ResetPasswordDto.mk "T1" "newpass1" "newpass1")
                        (mkWorld [] [Sample.T1] [])))
          = trace (mkWorld [] [Sample.T1] []) ++
            [ TokenFindUnique "T1";
              UserFindUniqueById (ResetPasswordToken.userId t) ].
Proof.
  apply (@resetPassword_failure_only_looks_up Sample.hashProvider 10
           (ResetPasswordDto.mk "T1" "newpass1" "newpass1")
           (mkWorld [] [Sample.T1] [])
           (BadRequestException msgInvalidResetToken)).
  reflexivity.
Defined.
